(** * tf2onnx.tf_utils: a shallow embedding and its verified properties

    The development follows [src/tf2onnx/tf_utils.py]: the dtype table and
    [map_tf_dtype], the tensor codec [tf_to_onnx_tensor], the shape helpers
    [get_tf_shape_attr] and [get_tf_tensor_shape], the pre-optimizer
    [tf_optimize] and the graph conversion pass [tflist_to_onnx].

    Python values are a small universe [PyVal]; dictionaries are [gmap]s;
    exceptions are an error monad [result]; the loops of the pass are monadic
    folds over explicit state.  Functions of numpy, onnx and tensorflow that
    the module calls are fields of the class [Externals]. *)

From Stdlib Require Import ZArith String List.
From stdpp Require Import base option list strings gmap.

(** ** Exceptions and the error monad *)

Inductive exn : Type :=
  | KeyError (key : Z)          (* dict[key] on an absent integer key *)
  | KeyErrorOther               (* dict[key] on an absent key that is no integer *)
  | TypeError (msg : string)
  | ValueError (msg : string)
  | AttributeError (msg : string)
  | IndexError
  | RuntimeError (msg : string)
  | ExternalError (msg : string). (* raised inside a library call *)

Inductive result (A : Type) : Type :=
  | Ok (a : A)
  | Raise (e : exn).
Arguments Ok {A} a.
Arguments Raise {A} e.

#[export] Instance result_ret : MRet result := fun A a => Ok a.
#[export] Instance result_bind : MBind result := fun A B f m =>
  match m with
  | Ok a => f a
  | Raise e => Raise e
  end.

Definition is_ok {A} (r : result A) : bool :=
  match r with Ok _ => true | Raise _ => false end.

(** [for x in l: st = f st x], stopping at the first exception. *)
Fixpoint foldM {S X : Type} (f : S -> X -> result S) (st : S) (l : list X) : result S :=
  match l with
  | [] => Ok st
  | x :: l' => st' ← f st x; foldM f st' l'
  end.

(** ** Enum numbers of the two type systems

    The module imports them from [tensorflow.core.framework.types_pb2] and
    from [onnx.onnx_pb]; the numbers are those of [types.proto] and
    [onnx.proto]. *)

Module types_pb2.
Definition DT_INVALID : Z := 0.
Definition DT_FLOAT : Z := 1.
Definition DT_DOUBLE : Z := 2.
Definition DT_INT32 : Z := 3.
Definition DT_UINT8 : Z := 4.
Definition DT_INT16 : Z := 5.
Definition DT_INT8 : Z := 6.
Definition DT_STRING : Z := 7.
Definition DT_COMPLEX64 : Z := 8.
Definition DT_INT64 : Z := 9.
Definition DT_BOOL : Z := 10.
Definition DT_QUINT8 : Z := 12.
Definition DT_UINT16 : Z := 17.
Definition DT_COMPLEX128 : Z := 18.
Definition DT_HALF : Z := 19.
Definition DT_RESOURCE : Z := 20.
End types_pb2.

Module TensorProto.
Definition FLOAT : Z := 1.
Definition UINT8 : Z := 2.
Definition INT8 : Z := 3.
Definition UINT16 : Z := 4.
Definition INT16 : Z := 5.
Definition INT32 : Z := 6.
Definition INT64 : Z := 7.
Definition STRING : Z := 8.
Definition BOOL : Z := 9.
Definition FLOAT16 : Z := 10.
Definition DOUBLE : Z := 11.
Definition COMPLEX64 : Z := 14.
Definition COMPLEX128 : Z := 15.
End TensorProto.

(** A dict literal: later entries overwrite earlier ones. *)
Definition dict_literal {V} (l : list (Z * V)) : gmap Z V :=
  fold_left (fun m kv => <[kv.1 := kv.2]> m) l ∅.

Definition TF_TO_ONNX_DTYPE : gmap Z Z :=
  dict_literal [
    (types_pb2.DT_FLOAT, TensorProto.FLOAT);
    (types_pb2.DT_HALF, TensorProto.FLOAT16);
    (types_pb2.DT_DOUBLE, TensorProto.DOUBLE);
    (types_pb2.DT_INT32, TensorProto.INT32);
    (types_pb2.DT_INT16, TensorProto.INT16);
    (types_pb2.DT_INT8, TensorProto.INT8);
    (types_pb2.DT_UINT8, TensorProto.UINT8);
    (types_pb2.DT_UINT16, TensorProto.UINT16);
    (types_pb2.DT_INT64, TensorProto.INT64);
    (types_pb2.DT_STRING, TensorProto.STRING);
    (types_pb2.DT_COMPLEX64, TensorProto.COMPLEX64);
    (types_pb2.DT_COMPLEX128, TensorProto.COMPLEX128);
    (types_pb2.DT_BOOL, TensorProto.BOOL);
    (types_pb2.DT_RESOURCE, TensorProto.INT64);
    (types_pb2.DT_QUINT8, TensorProto.UINT8)
  ].

(** ** Tensors *)

(** An element of an array of dtype [object]: the [bytes] that tensorflow
    puts there for a string tensor, or a [str]. *)
Inductive Elem : Type :=
  | EBytes (b : list Z)
  | EStr (s : string).

Inductive NdData : Type :=
  | Numeric (kind : Z) (buffer : list Z)   (* fixed-width elements, as their bytes *)
  | Objects (elems : list Elem).           (* dtype == np.object *)

Record ndarray : Type := mk_ndarray {
  nd_shape : list Z;
  nd_data : NdData
}.

(** [tensor_pb2.TensorProto], the value of a tensor attribute. *)
Record TfTensorProto : Type := mk_tf_tensor {
  tp_dtype : Z;
  tp_shape : list Z;
  tp_content : list Z;
  tp_string_val : list (list Z)
}.

(** What [numpy_helper.from_array array name] returns: the target payload,
    here the array it encodes and the name it carries. *)
Record OnnxTensor : Type := mk_onnx_tensor {
  ot_name : string;
  ot_array : ndarray
}.

(** ** Python values *)

Set Warnings "-register-all".

Inductive PyVal : Type :=
  | VNone
  | VBool (b : bool)
  | VInt (z : Z)
  | VStr (s : string)
  | VList (l : list PyVal)
  | VShape (unknown_rank : bool) (dim : list Z)  (* TensorShapeProto *)
  | VTensor (t : TfTensorProto)
  | VOnnxTensor (t : OnnxTensor).

(** [bool(v)] *)
Definition truthy (v : PyVal) : bool :=
  match v with
  | VNone => false
  | VBool b => b
  | VInt z => negb (z =? 0)%Z
  | VStr s => negb (String.eqb s "")
  | VList l => match l with [] => false | _ :: _ => true end
  | VShape _ _ | VTensor _ | VOnnxTensor _ => true
  end.

Definition is_None (v : PyVal) : bool :=
  match v with VNone => true | _ => false end.

(** [isinstance(v, list)] *)
Definition isinstance_list (v : PyVal) : bool :=
  match v with VList _ => true | _ => false end.

(** ** Type mapper *)

(** [TF_TO_ONNX_DTYPE[key]]: the keys of the table are integers; lists and
    protobuf messages are unhashable. *)
Definition TF_TO_ONNX_DTYPE_getitem (key : PyVal) : result PyVal :=
  let at_int (z : Z) :=
    match TF_TO_ONNX_DTYPE !! z with
    | Some c => Ok (VInt c)
    | None => Raise (KeyError z)
    end in
  match key with
  | VInt z => at_int z
  | VBool b => at_int (if b then 1 else 0)%Z   (* True == 1 and False == 0 *)
  | VNone | VStr _ => Raise KeyErrorOther
  | VList _ | VShape _ _ | VTensor _ | VOnnxTensor _ => Raise (TypeError "unhashable type")
  end.

Definition map_tf_dtype (dtype : PyVal) : result PyVal :=
  if truthy dtype then TF_TO_ONNX_DTYPE_getitem dtype else Ok dtype.

(** ** Source nodes and converted nodes *)

(** A tensor of the source graph: an output (or input) of a node.
    [t_shape] is its [TensorShape]: [None] when the rank is unknown,
    otherwise the dimensions, each known or not. *)
Record Tensor : Type := mk_tensor {
  t_name : string;
  t_dtype : PyVal;
  t_shape : option (list (option Z))
}.

(** A node of the source graph.  [n_attr] is [node.node_def.attr], in the
    order in which iterating over it yields the names. *)
Record Node : Type := mk_tf_node {
  n_name : string;
  n_type : string;
  n_inputs : list Tensor;
  n_outputs : list Tensor;
  n_attr : list (string * PyVal)
}.

(** The arguments [helper.make_node] is called with, which make the
    converted node. *)
Record ConvertedNode : Type := mk_onnx_node {
  cn_op_type : string;
  cn_input : list string;
  cn_output : list string;
  cn_name : string;
  cn_attr : gmap string PyVal
}.

(** ** What the module calls and does not define

    [MakeNdarray] is tensorflow's, [to_text] is the coercion of one element
    that numpy's [astype(np.str)] performs ([None] when it raises),
    [type_name] renders [type(e)], [from_array_raises] and
    [make_node_raises] tell when onnx's [numpy_helper.from_array] and
    [helper.make_node] raise, [extract_sub_graph] and [TransformGraph] are
    the graph tools of the pre-optimizer; [make_sure_exn], [port_name] and
    [node_name] stand for [make_sure], [port_name] and [node_name] of
    [tf2onnx.utils]. *)
Class Externals : Type := {
  MakeNdarray : TfTensorProto -> result ndarray;
  to_text : Elem -> option string;
  type_name : Elem -> string;
  from_array_raises : ndarray -> string -> option exn;
  make_node_raises : ConvertedNode -> option exn;
  make_sure_exn : string -> exn;
  port_name : string -> string;
  node_name : string -> string;
  GraphDef : Type;
  extract_sub_graph : GraphDef -> list string -> result GraphDef;
  TransformGraph : GraphDef -> list string -> list string -> list string -> result GraphDef
}.

Section TfUtils.
Context `{Externals}.

(** ** Tensor codec *)

Definition make_sure (bool_val : bool) (error_msg : string) : result unit :=
  if bool_val then Ok tt else Raise (make_sure_exn error_msg).

Definition isinstance_TensorProto (v : PyVal) : bool :=
  match v with VTensor _ => true | _ => false end.

(** The second [make_sure], that [MakeNdarray] returned an [ndarray], holds
    by the type of [MakeNdarray]. *)
Definition get_tf_tensor_data (tensor : PyVal) : result ndarray :=
  _ ← make_sure (isinstance_TensorProto tensor) "Require TensorProto";
  match tensor with
  | VTensor t => MakeNdarray t
  | _ => Raise (make_sure_exn "Require TensorProto")
  end.

(** [np_data.astype(np.str).astype(np.object)] on an array of objects: every
    element is coerced to text; it raises as soon as one cannot be. *)
Definition astype_str_object (shape : list Z) (elems : list Elem) : option ndarray :=
  texts ← mapM to_text elems;
  Some (mk_ndarray shape (Objects (EStr <$> texts))).

(** [numpy_helper.from_array(a, name=name)] *)
Definition from_array (a : ndarray) (name : string) : result OnnxTensor :=
  match from_array_raises a name with
  | Some e => Raise e
  | None => Ok (mk_onnx_tensor name a)
  end.

Definition tf_to_onnx_tensor (tensor : PyVal) (name : string) : result OnnxTensor :=
  np_data ← get_tf_tensor_data tensor;
  np_data ←
    match nd_data np_data with
    | Objects elems =>
        match astype_str_object (nd_shape np_data) elems with
        | Some a => Ok a
        | None =>
            (* except: raise RuntimeError(... type(np_data.flat[0])) *)
            match elems with
            | e :: _ => Raise (RuntimeError (String.append "Not support type: " (type_name e)))
            | [] => Raise IndexError
            end
        end
    | Numeric _ _ => Ok np_data
    end;
  from_array np_data name.

(** The default of the parameter: [def tf_to_onnx_tensor(tensor, name="")]. *)
Definition tf_to_onnx_tensor_default (tensor : PyVal) : result OnnxTensor :=
  tf_to_onnx_tensor tensor "".

(** ** Attributes and shapes *)

Fixpoint lookup_attr (name : string) (l : list (string * PyVal)) : option PyVal :=
  match l with
  | [] => None
  | (k, v) :: l' => if String.eqb k name then Some v else lookup_attr name l'
  end.

(** [node.get_attr(name)] raises [ValueError] when the node has no such
    attribute. *)
Definition get_attr (node : Node) (name : string) : result PyVal :=
  match lookup_attr name (n_attr node) with
  | Some v => Ok v
  | None => Raise (ValueError "No attr named")
  end.

Definition get_tf_node_attr (node : Node) (name : string) : result PyVal :=
  get_attr node name.

(** The body of the [try] in [get_tf_shape_attr], from [dims = None]. *)
Definition get_tf_shape_attr_try (node : Node) : result PyVal :=
  shape ← get_tf_node_attr node "shape";
  match shape with
  | VShape unknown_rank dim =>
      if negb unknown_rank then Ok (VList (VInt <$> dim)) else Ok VNone
  | _ => Raise (AttributeError "unknown_rank")
  end.

Definition get_tf_shape_attr (node : Node) : PyVal :=
  match get_tf_shape_attr_try node with
  | Ok dims => dims
  | Raise _ => VNone   (* except: pass *)
  end.

Definition dim_value (d : option Z) : PyVal :=
  match d with Some z => VInt z | None => VNone end.

(** [tensor.get_shape().as_list()] *)
Definition as_list (tensor : Tensor) : result PyVal :=
  match t_shape tensor with
  | Some dims => Ok (VList (dim_value <$> dims))
  | None => Raise (ValueError "as_list() is not defined on an unknown TensorShape.")
  end.

Definition get_tf_tensor_shape (tensor : Tensor) : PyVal :=
  match as_list tensor with
  | Ok shape => shape
  | Raise _ => VNone
  end.

(** ** Pre-optimizer *)

Definition tf_optimize_transforms (fold_constant : PyVal) : list string :=
  let transforms := [] in
  let transforms :=
    if truthy fold_constant
    then transforms ++ ["fold_constants(ignore_errors=true)";
                        "remove_attribute(attribute_name=_class)"]
    else transforms in
  transforms ++ ["fold_batch_norms"; "fold_old_batch_norms"].

Definition tf_optimize (inputs outputs : list string) (graph_def : GraphDef)
    (fold_constant : PyVal) : result GraphDef :=
  let transforms := tf_optimize_transforms fold_constant in
  let needed_names := (node_name <$> inputs) ++ (node_name <$> outputs) in
  graph_def ← extract_sub_graph graph_def needed_names;
  TransformGraph graph_def inputs outputs transforms.

(** ** Graph conversion pass *)

(** [collections.Counter]: [cnt[k] += 1] *)
Definition counter_incr (k : string) (cnt : gmap string nat) : gmap string nat :=
  <[k := S (default 0 (cnt !! k))]> cnt.

(** [d.get(k)] *)
Definition dict_get (d : gmap string PyVal) (k : string) : PyVal :=
  default VNone (d !! k).

(** [a in l] for a list of strings *)
Definition str_in (a : string) (l : list string) : bool :=
  existsb (String.eqb a) l.

Definition ignored_attr : list string :=
  ["unknown_rank"; "_class"; "Tshape"; "use_cudnn_on_gpu"; "Index"; "Tpaddings";
   "TI"; "Tparams"; "Tindices"; "Tlen"; "Tdim"; "dynamic_size"; "Tmultiples";
   "Tblock_shape"; "Tcrops"; "index_type"; "Taxis"; "U"; "maxval";
   "Tout"; "Tlabels"; "Tindex"; "element_shape"; "Targmax"].

(** The five values the pass returns, as they stand while it runs. *)
Record Tables : Type := mk_tables {
  onnx_nodes : list ConvertedNode;
  op_cnt : gmap string nat;
  attr_cnt : gmap string nat;
  output_shapes : gmap string PyVal;
  dtypes : gmap string PyVal
}.

Definition init_tables : Tables := mk_tables [] ∅ ∅ ∅ ∅.

Definition set_dtype (k : string) (v : PyVal) (tb : Tables) : Tables :=
  mk_tables (onnx_nodes tb) (op_cnt tb) (attr_cnt tb) (output_shapes tb)
            (<[k := v]> (dtypes tb)).

Definition set_output_shape (k : string) (v : PyVal) (tb : Tables) : Tables :=
  mk_tables (onnx_nodes tb) (op_cnt tb) (attr_cnt tb)
            (<[k := v]> (output_shapes tb)) (dtypes tb).

Definition incr_op_cnt (k : string) (tb : Tables) : Tables :=
  mk_tables (onnx_nodes tb) (counter_incr k (op_cnt tb)) (attr_cnt tb)
            (output_shapes tb) (dtypes tb).

Definition incr_attr_cnt (k : string) (tb : Tables) : Tables :=
  mk_tables (onnx_nodes tb) (op_cnt tb) (counter_incr k (attr_cnt tb))
            (output_shapes tb) (dtypes tb).

Definition append_node (n : ConvertedNode) (tb : Tables) : Tables :=
  mk_tables (onnx_nodes tb ++ [n]) (op_cnt tb) (attr_cnt tb)
            (output_shapes tb) (dtypes tb).

(** The body of [for out in node.outputs] of the first loop. *)
Definition scan_output (shape_override : gmap string PyVal)
    (tb : Tables) (out : Tensor) : result Tables :=
  let shape := dict_get shape_override (t_name out) in
  let shape := if is_None shape then get_tf_tensor_shape out else shape in
  d ← map_tf_dtype (t_dtype out);
  let tb := set_dtype (t_name out) d tb in
  Ok (set_output_shape (t_name out) shape tb).

Definition scan_node (shape_override : gmap string PyVal)
    (tb : Tables) (node : Node) : result Tables :=
  foldM (scan_output shape_override) tb (n_outputs node).

(** The body of [for a in node.node_def.attr] of the second loop; the state
    is the [attr] dict of the node and the tables. *)
Definition convert_attr (node : Node) (st : gmap string PyVal * Tables) (a : string)
    : result (gmap string PyVal * Tables) :=
  let attr := st.1 in
  let tb := incr_attr_cnt a st.2 in
  if String.eqb a "dtype" then
    v ← get_tf_node_attr node "dtype";
    d ← map_tf_dtype v;
    Ok (<[a := d]> attr, tb)
  else if String.eqb a "T" then
    dtype ← get_tf_node_attr node "T";
    if truthy dtype then
      if negb (isinstance_list dtype) then
        d ← map_tf_dtype dtype;
        Ok (attr, set_dtype (n_name node) d tb)
      else Ok (attr, tb)
    else Ok (attr, tb)
  else if str_in a ["output_type"; "output_dtype"; "out_type"; "Tidx"; "out_idx"] then
    v ← get_tf_node_attr node a;
    d ← map_tf_dtype v;
    Ok (<[a := d]> attr, tb)
  else if String.eqb a "shape" then
    let shape := get_tf_shape_attr node in
    if negb (is_None shape) then Ok (<[a := shape]> attr, tb) else Ok (attr, tb)
  else if String.eqb a "Tperm" then
    Ok (attr, tb)
  else if String.eqb a "value" then
    v ← get_tf_node_attr node a;
    onnx_tensor ← tf_to_onnx_tensor v (port_name (n_name node));
    Ok (<[a := VOnnxTensor onnx_tensor]> attr, tb)
  else if String.eqb a "DstT" then
    v ← get_tf_node_attr node "DstT";
    d ← map_tf_dtype v;
    Ok (<["to" := d]> attr, tb)
  else if String.eqb a "SrcT" then
    Ok (attr, tb)
  else if str_in a ignored_attr then
    Ok (attr, tb)
  else
    v ← get_tf_node_attr node a;
    Ok (<[a := v]> attr, tb).

(** [helper.make_node(op_type, inputs, outputs, name=name, **attr)]: a key
    ["name"] of [attr] collides with the keyword argument. *)
Definition make_node (op_type : string) (inputs outputs : list string) (name : string)
    (attr : gmap string PyVal) : result ConvertedNode :=
  match attr !! "name" with
  | Some _ => Raise (TypeError "got multiple values for keyword argument 'name'")
  | None =>
      let n := mk_onnx_node op_type inputs outputs name attr in
      match make_node_raises n with
      | Some e => Raise e
      | None => Ok n
      end
  end.

(** The body of [for node in ops] of the second loop. *)
Definition convert_node (tb : Tables) (node : Node) : result Tables :=
  let attr : gmap string PyVal := ∅ in
  let takeit := true in
  let tb := incr_op_cnt (n_type node) tb in
  '(attr, tb) ← foldM (convert_attr node) (attr, tb) ((n_attr node).*1);
  if takeit then
    let input_names := t_name <$> n_inputs node in
    let output_names := t_name <$> n_outputs node in
    (* the handler logs and raises the exception again *)
    onnx_node ← make_node (n_type node) input_names output_names (n_name node) attr;
    Ok (append_node onnx_node tb)
  else Ok tb.

Definition tflist_to_onnx (node_list : list Node) (shape_override : gmap string PyVal)
    : result Tables :=
  let ops := node_list in
  tb ← foldM (scan_node shape_override) init_tables ops;
  foldM convert_node tb ops.

(** [cn] is what the second loop builds for [node]: the node's type, name
    and input and output names, and the [attr] dict that the attribute loop
    builds from the empty dict. *)
Definition converted_from (node : Node) (cn : ConvertedNode) : Prop :=
  cn_op_type cn = n_type node
  /\ cn_input cn = (t_name <$> n_inputs node)
  /\ cn_output cn = (t_name <$> n_outputs node)
  /\ cn_name cn = n_name node
  /\ exists tb0 tb1,
      foldM (convert_attr node) (∅, tb0) ((n_attr node).*1) = Ok (cn_attr cn, tb1).

End TfUtils.

(** ** A concrete environment and sample graphs *)

Fixpoint drop_leading {A} (p : A -> bool) (l : list A) : list A :=
  match l with
  | [] => []
  | x :: l' => if p x then drop_leading p l' else l
  end.

(** A fixed-width unicode array holds no trailing NUL characters. *)
Definition strip_trailing_nul (l : list Ascii.ascii) : list Ascii.ascii :=
  rev (drop_leading (fun c => Ascii.eqb c Ascii.zero) (rev l)).

(** The coercion of numpy: [bytes] are decoded as ASCII, which fails on a
    byte above 127. *)
Definition ascii_text (e : Elem) : option string :=
  match e with
  | EStr s => Some (string_of_list_ascii (strip_trailing_nul (list_ascii_of_string s)))
  | EBytes b =>
      if forallb (fun z => (0 <=? z)%Z && (z <? 128)%Z) b
      then Some (string_of_list_ascii
                   (strip_trailing_nul
                      ((fun z => Ascii.ascii_of_nat (Z.to_nat z)) <$> b)))
      else None
  end.

Definition sample_externals : Externals := {|
  MakeNdarray t :=
    if (tp_dtype t =? types_pb2.DT_STRING)%Z
    then Ok (mk_ndarray (tp_shape t) (Objects (EBytes <$> tp_string_val t)))
    else Ok (mk_ndarray (tp_shape t) (Numeric (tp_dtype t) (tp_content t)));
  to_text := ascii_text;
  type_name e := match e with EBytes _ => "<class 'bytes'>" | EStr _ => "<class 'str'>" end;
  from_array_raises _ _ := None;
  make_node_raises _ := None;
  make_sure_exn error_msg := ValueError (String.append "make_sure failure: " error_msg);
  port_name name := String.append name ":0";
  node_name name := name;
  GraphDef := list string;
  extract_sub_graph g _ := Ok g;
  TransformGraph g _ _ _ := Ok g
|}.

(** An [Identity] node [n] with output [n:0] and a type attribute [T]. *)
Definition identity_node : Node :=
  mk_tf_node "n" "Identity" []
    [mk_tensor "n:0" (VInt types_pb2.DT_FLOAT) (Some [Some 2%Z; None])]
    [("T", VInt types_pb2.DT_FLOAT)].

(** A [Cast] node that also carries an attribute named [to]. *)
Definition cast_node : Node :=
  mk_tf_node "c" "Cast" []
    [mk_tensor "c:0" (VInt types_pb2.DT_INT32) None]
    [("SrcT", VInt types_pb2.DT_FLOAT); ("DstT", VInt types_pb2.DT_INT32); ("to", VInt 5)].

(** A plain [Cast] node. *)
Definition plain_cast_node : Node :=
  mk_tf_node "c" "Cast" []
    [mk_tensor "c:0" (VInt types_pb2.DT_INT32) None]
    [("SrcT", VInt types_pb2.DT_FLOAT); ("DstT", VInt types_pb2.DT_INT32)].

(** A string constant with a byte that is no ASCII character. *)
Definition bad_string_tensor : TfTensorProto :=
  mk_tf_tensor types_pb2.DT_STRING [] [] [[104; 255]%Z].

Definition bad_const_node : Node :=
  mk_tf_node "k" "Const" []
    [mk_tensor "k:0" (VInt types_pb2.DT_STRING) (Some [])]
    [("value", VTensor bad_string_tensor); ("dtype", VInt types_pb2.DT_STRING)].

Definition int_tensor : TfTensorProto :=
  mk_tf_tensor types_pb2.DT_INT32 [] [1; 0; 0; 0]%Z [].

Definition const_node : Node :=
  mk_tf_node "k" "Const" []
    [mk_tensor "k:0" (VInt types_pb2.DT_INT32) (Some [])]
    [("value", VTensor int_tensor); ("dtype", VInt types_pb2.DT_INT32)].

(** A placeholder whose declared shape has unknown rank. *)
Definition placeholder_node : Node :=
  mk_tf_node "p" "Placeholder" []
    [mk_tensor "p:0" (VInt types_pb2.DT_FLOAT) None]
    [("dtype", VInt types_pb2.DT_FLOAT); ("shape", VShape true [])].

(** Reading a component of the result of a run. *)
Definition run_get {A B} (f : A -> B) (r : result A) : option B :=
  match r with Ok a => Some (f a) | Raise _ => None end.

Definition run_value {A} (d : A) (r : result A) : A :=
  match r with Ok a => a | Raise _ => d end.

(** The output names that a list of converted nodes refers to. *)
Definition output_names (nodes : list ConvertedNode) : gset string :=
  list_to_set (concat (cn_output <$> nodes)).

(** Every output tensor of the graph, in the order the first loop visits. *)
Definition all_outputs (ops : list Node) : list Tensor :=
  concat (n_outputs <$> ops).

(** The node carries a type attribute [T] that is truthy and no list: the
    second loop records it in [dtypes] under the node's own name. *)
Definition type_hint (node : Node) : bool :=
  match lookup_attr "T" (n_attr node) with
  | Some dtype => truthy dtype && negb (isinstance_list dtype)
  | None => false
  end.

Fixpoint hinted_names (ops : list Node) : gset string :=
  match ops with
  | [] => ∅
  | node :: ops' =>
      (if type_hint node then {[n_name node]} else ∅) ∪ hinted_names ops'
  end.

(** The shape the first loop resolves for one output. *)
Definition resolved_shape (shape_override : gmap string PyVal) (out : Tensor) : PyVal :=
  match shape_override !! t_name out with
  | Some VNone | None => get_tf_tensor_shape out
  | Some shape => shape
  end.

(** ** The rest of the module and the policy tables of the pass *)

(** [is_tf_const_op] is a helper of [tf2onnx.utils]; [tolist] is numpy's
    [ndarray.tolist]. *)
Class ConstExternals : Type := {
  is_tf_const_op : Node -> bool;
  tolist : ndarray -> PyVal
}.

(** What [get_tf_const_value] returns: a (possibly nested) list, or the
    array itself. *)
Inductive ConstValue : Type :=
  | AsList (v : PyVal)
  | AsArray (a : ndarray).

Definition get_tf_const_value `{Externals} `{ConstExternals} (op : Node) (as_list : bool)
    : result ConstValue :=
  _ ← make_sure (is_tf_const_op op) (String.append (n_name op) " isn't a const op");
  v ← get_attr op "value";
  value ← get_tf_tensor_data v;
  if as_list then Ok (AsList (tolist value)) else Ok (AsArray value).

(** The attribute names whose value goes through [map_tf_dtype] and is
    stored under the same name. *)
Definition type_attr (a : string) : bool :=
  str_in a ["dtype"; "output_type"; "output_dtype"; "out_type"; "Tidx"; "out_idx"].

(** The attribute names for which the loop stores nothing in [attr]. *)
Definition dropped_attr (a : string) : bool :=
  str_in a ["T"; "Tperm"; "SrcT"] || str_in a ignored_attr.

(** The attribute names that some branch before the last [else] handles. *)
Definition special_attr (a : string) : bool :=
  type_attr a || str_in a ["shape"; "value"; "DstT"] || dropped_attr a.

(** How often [k] occurs in [l]. *)
Definition occurrences (k : string) (l : list string) : nat :=
  length (List.filter (String.eqb k) l).

(** The entry of a [collections.Counter] that has counted [n] times: no
    entry at all for a key never counted. *)
Definition counter_entry (n : nat) : option nat :=
  match n with O => None | S _ => Some n end.

Definition with_shapes (shapes : gmap string PyVal) (tb : Tables) : Tables :=
  mk_tables (onnx_nodes tb) (op_cnt tb) (attr_cnt tb) shapes (dtypes tb).

(** The value of the bytes of an unsigned little-endian integer. *)
Definition le_int (buffer : list Z) : Z :=
  fold_right (fun b acc => (b + 256 * acc)%Z) 0%Z buffer.

(** A sample [tolist] for the arrays of the sample graphs: a scalar of a
    non-negative integer gives that integer, an array of text the list of
    its texts; of another array it takes the bytes, as for [uint8]. *)
Definition sample_tolist (a : ndarray) : PyVal :=
  match nd_data a, nd_shape a with
  | Numeric _ buffer, [] => VInt (le_int buffer)
  | Numeric _ buffer, _ :: _ => VList (VInt <$> buffer)
  | Objects elems, _ =>
      VList ((fun e => match e with
                       | EStr s => VStr s
                       | EBytes b => VList (VInt <$> b)
                       end) <$> elems)
  end.

Definition sample_const_externals : ConstExternals := {|
  is_tf_const_op op := String.eqb (n_type op) "Const";
  tolist := sample_tolist
|}.

(** Modelled from the spec: the re-decoding of a target payload, the
    inverse of the encoding that the codec ends with; the module itself
    never decodes (in onnx it is [numpy_helper.to_array]).  A payload is
    the array it encodes and its name, so decoding gives the array back. *)
Definition to_array (p : OnnxTensor) : ndarray := ot_array p.

(** A placeholder with a declared shape of known rank and an attribute that
    no branch singles out. *)
Definition shaped_placeholder_node : Node :=
  mk_tf_node "q" "Placeholder" []
    [mk_tensor "q:0" (VInt types_pb2.DT_FLOAT) (Some [None; Some 3%Z])]
    [("dtype", VInt types_pb2.DT_FLOAT); ("shape", VShape false [-1; 3]%Z);
     ("_output_shapes", VList []); ("Tshape", VInt types_pb2.DT_INT32)].

(** A node with an attribute called [name]. *)
Definition named_attr_node : Node :=
  mk_tf_node "m" "Custom" [] [] [("name", VStr "x")].

(** A node whose output has a type code outside the table. *)
Definition variant_node : Node :=
  mk_tf_node "v" "Custom" [] [mk_tensor "v:0" (VInt 21) None] [].

(** A string constant of ASCII bytes. *)
Definition good_string_tensor : TfTensorProto :=
  mk_tf_tensor types_pb2.DT_STRING [] [] [[104; 105]%Z].

Definition shaped_placeholder_converted : ConvertedNode :=
  mk_onnx_node "Placeholder" [] ["q:0"] "q"
    (<["_output_shapes" := VList []]>
       (<["shape" := VList [VInt (-1); VInt 3]]>
          (<["dtype" := VInt TensorProto.FLOAT]> ∅))).

(** A constant whose ["value"] is no tensor. *)
Definition bad_value_node : Node :=
  mk_tf_node "b" "Const" [] [] [("value", VInt 3)].

(** * Properties *)

Set Warnings "-clear-no-such-hyp".

(** ** The error monad *)

Lemma bind_Ok {A B} (m : result A) (f : A -> result B) (b : B) :
  m ≫= f = Ok b -> exists a, m = Ok a /\ f a = Ok b.
Proof. destruct m as [a|e]; simpl; [eauto | discriminate]. Qed.

Lemma Ok_bind {A B} (a : A) (f : A -> result B) : Ok a ≫= f = f a.
Proof. reflexivity. Qed.

Lemma Raise_bind {A B} (e : exn) (f : A -> result B) : Raise e ≫= f = Raise e.
Proof. reflexivity. Qed.

Lemma foldM_app {S X} (f : S -> X -> result S) (l1 l2 : list X) (st : S) :
  foldM f st (l1 ++ l2) = foldM f st l1 ≫= fun st' => foldM f st' l2.
Proof.
  revert st. induction l1 as [|x l1 IH]; intros st; simpl; [reflexivity|].
  destruct (f st x) as [st'|e]; simpl; [apply IH | reflexivity].
Qed.

Lemma foldM_concat {S X} (f : S -> X -> result S) (ll : list (list X)) (st : S) :
  foldM (fun st l => foldM f st l) st ll = foldM f st (concat ll).
Proof.
  revert st. induction ll as [|l ll IH]; intros st; simpl; [reflexivity|].
  rewrite foldM_app. destruct (foldM f st l); simpl; [apply IH | reflexivity].
Qed.

Lemma foldM_fmap {S X Y} (f : S -> X -> result S) (g : Y -> X) (l : list Y) (st : S) :
  foldM f st (g <$> l) = foldM (fun st y => f st (g y)) st l.
Proof.
  revert st. induction l as [|y l IH]; intros st; simpl; [reflexivity|].
  destruct (f st (g y)); simpl; [apply IH | reflexivity].
Qed.

(** A property of the state that every successful step keeps holds after a
    successful loop. *)
Lemma foldM_invariant {S X} (f : S -> X -> result S) (P : S -> Prop) (l : list X) :
  (forall st x st', x ∈ l -> P st -> f st x = Ok st' -> P st') ->
  forall st st', P st -> foldM f st l = Ok st' -> P st'.
Proof.
  induction l as [|x l IH]; intros Hstep st st' HP Hrun; simpl in Hrun.
  - by injection Hrun as <-.
  - apply bind_Ok in Hrun as (st1 & Hx & Hrest).
    apply (IH (fun st x st' Hin => Hstep st x st' (list_elem_of_further _ _ _ Hin)) st1);
      [|done].
    apply (Hstep st x); [left | done | done].
Qed.

(** A successful loop ran every one of its steps successfully. *)
Lemma foldM_Ok_step {S X} (f : S -> X -> result S) (l : list X) (x : X) (st st' : S) :
  foldM f st l = Ok st' -> x ∈ l -> exists st1 st2, f st1 x = Ok st2.
Proof.
  revert st. induction l as [|y l IH]; intros st Hrun Hin.
  - by apply elem_of_nil in Hin.
  - simpl in Hrun. apply bind_Ok in Hrun as (st1 & Hy & Hrest).
    apply elem_of_cons in Hin as [->|Hin]; [eauto | by eapply IH].
Qed.

(** ** Type mapper *)

Lemma TF_TO_ONNX_DTYPE_no_zero : TF_TO_ONNX_DTYPE !! 0%Z = None.
Proof. reflexivity. Qed.

Lemma map_tf_dtype_code (z : Z) :
  map_tf_dtype (VInt z) =
    if (z =? 0)%Z then Ok (VInt z)
    else match TF_TO_ONNX_DTYPE !! z with
         | Some c => Ok (VInt c)
         | None => Raise (KeyError z)
         end.
Proof. unfold map_tf_dtype. cbn [truthy TF_TO_ONNX_DTYPE_getitem]. by destruct (z =? 0)%Z. Qed.

(** C3, as the claim states it, fails: the type code 0 is not [None] and is
    absent from the table, and the call returns it instead of failing. *)
Lemma map_tf_dtype_zero_absent_no_failure :
  ~ (forall z : Z,
       (exists e, map_tf_dtype (VInt z) = Raise e) <-> TF_TO_ONNX_DTYPE !! z = None).
Proof.
  intros Hclaim. destruct (proj2 (Hclaim 0%Z) TF_TO_ONNX_DTYPE_no_zero) as [e He].
  discriminate He.
Qed.

(** C3 (amended): [None] yields [None]; a code of the table yields the
    table's target code; the call fails, with the [KeyError] of the lookup,
    exactly when the code is neither [None] nor 0 and is absent from the
    table; the code 0 is returned unchanged. *)
Theorem map_tf_dtype_total_spec :
  map_tf_dtype VNone = Ok VNone
  /\ (forall z c : Z, TF_TO_ONNX_DTYPE !! z = Some c -> map_tf_dtype (VInt z) = Ok (VInt c))
  /\ (forall z : Z,
        (exists e, map_tf_dtype (VInt z) = Raise e)
        <-> (z <> 0%Z /\ TF_TO_ONNX_DTYPE !! z = None))
  /\ (forall (z : Z) e, map_tf_dtype (VInt z) = Raise e -> e = KeyError z)
  /\ map_tf_dtype (VInt 0) = Ok (VInt 0).
Proof.
  split; [reflexivity|]. split; [|split; [|split; [|reflexivity]]].
  - intros z c Hz. rewrite map_tf_dtype_code.
    destruct (Z.eqb_spec z 0) as [->|_].
    + rewrite TF_TO_ONNX_DTYPE_no_zero in Hz. discriminate.
    + by rewrite Hz.
  - intros z. rewrite map_tf_dtype_code. destruct (Z.eqb_spec z 0) as [->|Hz].
    + split; [intros [e He]; discriminate | intros [Hne _]; by destruct Hne].
    + destruct (TF_TO_ONNX_DTYPE !! z) as [c|].
      * split; [intros [e He]; discriminate | intros [_ Hn]; discriminate].
      * split; [done | eauto].
  - intros z e. rewrite map_tf_dtype_code. destruct (z =? 0)%Z; [discriminate|].
    destruct (TF_TO_ONNX_DTYPE !! z); [discriminate|]. by intros [= <-].
Qed.

Lemma map_tf_dtype_total_spec_witness :
  map_tf_dtype (VInt types_pb2.DT_HALF) = Ok (VInt TensorProto.FLOAT16)
  /\ map_tf_dtype (VInt 21) = Raise (KeyError 21).
Proof.
  split.
  - apply (proj1 (proj2 map_tf_dtype_total_spec) types_pb2.DT_HALF TensorProto.FLOAT16).
    reflexivity.
  - destruct (proj2 (proj1 (proj2 (proj2 map_tf_dtype_total_spec)) 21%Z)) as [e He].
    + split; [discriminate | reflexivity].
    + rewrite He. f_equal.
      exact (proj1 (proj2 (proj2 (proj2 map_tf_dtype_total_spec))) 21%Z e He).
Defined.

(** C10: every falsy value, the integer 0 and [None] among them, is
    returned unchanged and without an error; only a truthy value reaches the
    lookup in the table, so only a truthy value can make the call fail. *)
Theorem map_tf_dtype_falsy_passthrough :
  (forall dtype, truthy dtype = false -> map_tf_dtype dtype = Ok dtype)
  /\ map_tf_dtype (VInt 0) = Ok (VInt 0)
  /\ map_tf_dtype VNone = Ok VNone
  /\ (forall dtype, truthy dtype = true -> map_tf_dtype dtype = TF_TO_ONNX_DTYPE_getitem dtype)
  /\ (forall dtype e, map_tf_dtype dtype = Raise e -> truthy dtype = true).
Proof.
  repeat split.
  - intros dtype Hf. unfold map_tf_dtype. by rewrite Hf.
  - intros dtype Ht. unfold map_tf_dtype. by rewrite Ht.
  - intros dtype e. unfold map_tf_dtype. by destruct (truthy dtype).
Qed.

Lemma map_tf_dtype_falsy_passthrough_witness :
  map_tf_dtype (VInt 0) = Ok (VInt 0)
  /\ map_tf_dtype (VList []) = Ok (VList [])
  /\ map_tf_dtype (VInt 3) = TF_TO_ONNX_DTYPE_getitem (VInt 3).
Proof.
  split; [|split].
  - apply (proj1 map_tf_dtype_falsy_passthrough (VInt 0)). reflexivity.
  - apply (proj1 map_tf_dtype_falsy_passthrough (VList [])). reflexivity.
  - apply (proj1 (proj2 (proj2 (proj2 map_tf_dtype_falsy_passthrough))) (VInt 3)).
    reflexivity.
Defined.

Section Properties.
Context `{Externals}.

(** ** Pre-optimizer *)

(** C9: the transforms handed to [TransformGraph] are constant folding with
    errors ignored, the removal of the colocation attribute and the two
    batch-norm folds when the flag is set, the two batch-norm folds alone
    when it is not; the two folds are there in every call. *)
Theorem tf_optimize_transform_sequence
    (inputs outputs : list string) (graph_def : GraphDef) (fold_constant : PyVal) :
  tf_optimize inputs outputs graph_def fold_constant =
    (g ← extract_sub_graph graph_def ((node_name <$> inputs) ++ (node_name <$> outputs));
     TransformGraph g inputs outputs
       (if truthy fold_constant
        then ["fold_constants(ignore_errors=true)";
              "remove_attribute(attribute_name=_class)";
              "fold_batch_norms"; "fold_old_batch_norms"]
        else ["fold_batch_norms"; "fold_old_batch_norms"]))
  /\ tf_optimize_transforms fold_constant =
       (if truthy fold_constant
        then ["fold_constants(ignore_errors=true)";
              "remove_attribute(attribute_name=_class)";
              "fold_batch_norms"; "fold_old_batch_norms"]
        else ["fold_batch_norms"; "fold_old_batch_norms"])
  /\ (exists pre, tf_optimize_transforms fold_constant =
                    pre ++ ["fold_batch_norms"; "fold_old_batch_norms"]).
Proof.
  assert (Hseq : tf_optimize_transforms fold_constant =
       (if truthy fold_constant
        then ["fold_constants(ignore_errors=true)";
              "remove_attribute(attribute_name=_class)";
              "fold_batch_norms"; "fold_old_batch_norms"]
        else ["fold_batch_norms"; "fold_old_batch_norms"])).
  { unfold tf_optimize_transforms. by destruct (truthy fold_constant). }
  split; [|split].
  - unfold tf_optimize. by rewrite Hseq.
  - exact Hseq.
  - unfold tf_optimize_transforms. eexists. reflexivity.
Qed.

(** ** Tensor codec *)

Lemma from_array_name (a : ndarray) (name : string) (p : OnnxTensor) :
  from_array a name = Ok p -> ot_name p = name.
Proof.
  unfold from_array. destruct (from_array_raises a name); [discriminate|].
  by intros [= <-].
Qed.

Lemma tf_to_onnx_tensor_name (tensor : PyVal) (name : string) (p : OnnxTensor) :
  tf_to_onnx_tensor tensor name = Ok p -> ot_name p = name.
Proof.
  unfold tf_to_onnx_tensor. intros Hrun.
  apply bind_Ok in Hrun as (a & _ & Hrun).
  apply bind_Ok in Hrun as (a' & _ & Hrun).
  by apply from_array_name in Hrun.
Qed.

Lemma mapM_to_text_None (elems : list Elem) (e : Elem) :
  e ∈ elems -> to_text e = None -> mapM to_text elems = None.
Proof.
  intros Hin He. apply mapM_None_2, Exists_exists. eauto.
Qed.

(** A numeric array goes to [from_array] as [MakeNdarray] returned it. *)
Lemma tf_to_onnx_tensor_numeric (t : TfTensorProto) (arr : ndarray) (kind : Z)
    (buffer : list Z) (name : string) :
  MakeNdarray t = Ok arr -> nd_data arr = Numeric kind buffer ->
  tf_to_onnx_tensor (VTensor t) name = from_array arr name.
Proof.
  intros Harr Hdata. unfold tf_to_onnx_tensor, get_tf_tensor_data. cbn.
  rewrite Harr, Ok_bind, Hdata. reflexivity.
Qed.

(** ** The per-attribute policy *)

Lemma lookup_attr_Some_key (name : string) (l : list (string * PyVal)) (v : PyVal) :
  lookup_attr name l = Some v -> name ∈ l.*1.
Proof.
  induction l as [|[k w] l IH]; simpl; [discriminate|].
  destruct (String.eqb_spec k name) as [->|_]; [left | right; auto].
Qed.

Ltac name_case a lit :=
  let E := fresh "E" in
  destruct (String.eqb_spec a lit) as [E|E]; [subst a|].

Ltac step_bind H :=
  let x := fresh "x" in
  let Hx := fresh "Hx" in
  apply bind_Ok in H as (x & Hx & H).

Ltac in_names Hin :=
  unfold str_in in Hin; cbn [existsb] in Hin;
  repeat (apply orb_prop in Hin as [Hin|Hin]);
  try discriminate Hin; apply String.eqb_eq in Hin; subst.

Lemma get_attr_Ok (node : Node) (name : string) (v : PyVal) :
  get_tf_node_attr node name = Ok v -> lookup_attr name (n_attr node) = Some v.
Proof.
  unfold get_tf_node_attr, get_attr.
  destruct (lookup_attr name (n_attr node)); [by intros [= ->] | discriminate].
Qed.

(** What one step of the attribute loop does to the [attr] dict of the node:
    nothing, or it stores a value under the attribute's own name, or, for
    [DstT], the mapped type under ["to"]. *)
Lemma convert_attr_attr (node : Node) (attr attr' : gmap string PyVal)
    (tb tb' : Tables) (a : string) :
  convert_attr node (attr, tb) a = Ok (attr', tb') ->
  (attr' = attr /\ a <> "DstT" /\ a <> "value")
  \/ (exists v, attr' = <[a := v]> attr
        /\ a <> "DstT" /\ a <> "SrcT" /\ a <> "T"
        /\ (a = "shape" -> v = get_tf_shape_attr node /\ v <> VNone)
        /\ (a = "value" ->
            exists p, v = VOnnxTensor p /\ ot_name p = port_name (n_name node)))
  \/ (a = "DstT"
      /\ exists X d, lookup_attr "DstT" (n_attr node) = Some X
           /\ map_tf_dtype X = Ok d /\ attr' = <["to" := d]> attr).
Proof.
  unfold convert_attr. cbn [fst snd]. intros Hstep.
  name_case a "dtype".
  { step_bind Hstep. step_bind Hstep. injection Hstep as <- <-.
    right; left. eexists. repeat split; try done. }
  name_case a "T".
  { left. split; [|done]. step_bind Hstep.
    destruct (truthy x); [|by injection Hstep as <- <-].
    destruct (negb (isinstance_list x)); [|by injection Hstep as <- <-].
    step_bind Hstep. by injection Hstep as <- <-. }
  destruct (str_in a ["output_type"; "output_dtype"; "out_type"; "Tidx"; "out_idx"])
    eqn:Hin.
  { step_bind Hstep. step_bind Hstep. injection Hstep as <- <-.
    right; left. eexists. split; [reflexivity|].
    in_names Hin; repeat split; done. }
  name_case a "shape".
  { destruct (get_tf_shape_attr node) eqn:Hshape; cbn [is_None negb] in Hstep;
      injection Hstep as <- <-;
      first [ left; done
            | right; left; eexists; repeat split; done ]. }
  name_case a "Tperm".
  { left. by injection Hstep as <- <-. }
  name_case a "value".
  { step_bind Hstep. step_bind Hstep. injection Hstep as <- <-.
    right; left. eexists. split; [reflexivity|].
    repeat split; try done. intros _. eexists. split; [reflexivity|].
    by eapply tf_to_onnx_tensor_name. }
  name_case a "DstT".
  { step_bind Hstep. step_bind Hstep. injection Hstep as <- <-.
    right; right. split; [done|]. apply get_attr_Ok in Hx. eauto. }
  name_case a "SrcT".
  { left. by injection Hstep as <- <-. }
  destruct (str_in a ignored_attr) eqn:Hign.
  { left. by injection Hstep as <- <-. }
  step_bind Hstep. injection Hstep as <- <-.
  right; left. eexists. repeat split; done.
Qed.

(** What one step of the attribute loop does to the tables: the node list
    and the shape table stay, and [dtypes] gains the node's name exactly for
    a type hint [T]. *)
Lemma convert_attr_tables (node : Node) (attr attr' : gmap string PyVal)
    (tb tb' : Tables) (a : string) :
  convert_attr node (attr, tb) a = Ok (attr', tb') ->
  onnx_nodes tb' = onnx_nodes tb
  /\ output_shapes tb' = output_shapes tb
  /\ (forall k, k ∈ dom (dtypes tb') <->
        k ∈ dom (dtypes tb) \/ (k = n_name node /\ a = "T" /\ type_hint node = true)).
Proof.
  unfold convert_attr. cbn [fst snd]. intros Hstep.
  assert (Hsame : tb' = incr_attr_cnt a tb -> a <> "T" ->
    onnx_nodes tb' = onnx_nodes tb /\ output_shapes tb' = output_shapes tb
    /\ (forall k, k ∈ dom (dtypes tb') <->
          k ∈ dom (dtypes tb) \/ (k = n_name node /\ a = "T" /\ type_hint node = true))).
  { intros -> Hne. repeat split; cbn; [tauto | intros [?|(_ & ? & _)]; done]. }
  name_case a "dtype".
  { step_bind Hstep. step_bind Hstep. injection Hstep as <- <-. by apply Hsame. }
  name_case a "T".
  { clear Hsame. step_bind Hstep. apply get_attr_Ok in Hx.
    unfold type_hint. rewrite Hx.
    destruct (truthy x); cbn [andb];
      [|injection Hstep as <- <-; repeat split; cbn; [tauto | intros [?|(_ & _ & ?)]; done]].
    destruct (isinstance_list x); cbn [negb] in *;
      [injection Hstep as <- <-; repeat split; cbn; [tauto | intros [?|(_ & _ & ?)]; done]|].
    step_bind Hstep. injection Hstep as <- <-. repeat split; cbn.
    - rewrite dom_insert_L, elem_of_union, elem_of_singleton. tauto.
    - rewrite dom_insert_L, elem_of_union, elem_of_singleton. tauto. }
  destruct (str_in a ["output_type"; "output_dtype"; "out_type"; "Tidx"; "out_idx"]).
  { step_bind Hstep. step_bind Hstep. injection Hstep as <- <-. by apply Hsame. }
  name_case a "shape".
  { destruct (negb (is_None (get_tf_shape_attr node)));
      injection Hstep as <- <-; by apply Hsame. }
  name_case a "Tperm".
  { injection Hstep as <- <-. by apply Hsame. }
  name_case a "value".
  { step_bind Hstep. step_bind Hstep. injection Hstep as <- <-. by apply Hsame. }
  name_case a "DstT".
  { step_bind Hstep. step_bind Hstep. injection Hstep as <- <-. by apply Hsame. }
  name_case a "SrcT".
  { injection Hstep as <- <-. by apply Hsame. }
  destruct (str_in a ignored_attr).
  { injection Hstep as <- <-. by apply Hsame. }
  step_bind Hstep. injection Hstep as <- <-. by apply Hsame.
Qed.

Lemma convert_attrs_tables (node : Node) (l : list string)
    (attr attr' : gmap string PyVal) (tb tb' : Tables) :
  foldM (convert_attr node) (attr, tb) l = Ok (attr', tb') ->
  onnx_nodes tb' = onnx_nodes tb
  /\ output_shapes tb' = output_shapes tb
  /\ (forall k, k ∈ dom (dtypes tb') <->
        k ∈ dom (dtypes tb) \/ (k = n_name node /\ "T" ∈ l /\ type_hint node = true)).
Proof.
  revert attr tb. induction l as [|a l IH]; intros attr tb Hrun; simpl in Hrun.
  - injection Hrun as <- <-. repeat split; [tauto|].
    intros [?|(_ & Hin & _)]; [done | by apply elem_of_nil in Hin].
  - apply bind_Ok in Hrun as ([attr1 tb1] & Hstep & Hrun).
    apply convert_attr_tables in Hstep as (Hn1 & Hs1 & Hd1).
    apply IH in Hrun as (Hn & Hs & Hd).
    split; [congruence|]. split; [congruence|].
    intros k. rewrite Hd, Hd1, elem_of_cons. intuition (subst; auto).
Qed.

(** What the second loop does for one node. *)
Lemma convert_node_Ok (node : Node) (tb tb' : Tables) :
  convert_node tb node = Ok tb' ->
  exists cn, converted_from node cn
    /\ onnx_nodes tb' = onnx_nodes tb ++ [cn]
    /\ output_shapes tb' = output_shapes tb
    /\ (forall k, k ∈ dom (dtypes tb') <->
          k ∈ dom (dtypes tb) \/ (k = n_name node /\ type_hint node = true)).
Proof.
  unfold convert_node. intros Hrun.
  apply bind_Ok in Hrun as ([attr tb1] & Hattrs & Hrun).
  apply bind_Ok in Hrun as (cn & Hmake & Hrun). injection Hrun as <-.
  pose proof (convert_attrs_tables _ _ _ _ _ _ Hattrs) as (Hn & Hs & Hd).
  unfold make_node in Hmake. destruct (attr !! "name"); [discriminate|].
  destruct (make_node_raises _); [discriminate|]. injection Hmake as <-.
  eexists (mk_onnx_node _ _ _ _ _). split; [|split; [|split]].
  - unfold converted_from. cbn. repeat split. do 2 eexists. exact Hattrs.
  - cbn. by rewrite Hn.
  - cbn. by rewrite Hs.
  - intros k. cbn. rewrite Hd. cbn. split; [naive_solver|].
    intros [?|[-> Hhint]]; [by left | right]. repeat split; [|done].
    unfold type_hint in Hhint.
    destruct (lookup_attr "T" (n_attr node)) eqn:HT; [|discriminate].
    by eapply lookup_attr_Some_key.
Qed.

Lemma convert_nodes_Ok (ops : list Node) (tb tb' : Tables) :
  foldM convert_node tb ops = Ok tb' ->
  exists cns, Forall2 converted_from ops cns
    /\ onnx_nodes tb' = onnx_nodes tb ++ cns
    /\ output_shapes tb' = output_shapes tb
    /\ (forall k, k ∈ dom (dtypes tb') <-> k ∈ dom (dtypes tb) \/ k ∈ hinted_names ops).
Proof.
  revert tb. induction ops as [|node ops IH]; intros tb Hrun; simpl in Hrun.
  - injection Hrun as <-. exists []. rewrite app_nil_r. repeat split; [constructor|set_solver..].
  - apply bind_Ok in Hrun as (tb1 & Hnode & Hrun).
    apply convert_node_Ok in Hnode as (cn & Hcn & Hn1 & Hs1 & Hd1).
    apply IH in Hrun as (cns & Hcns & Hn & Hs & Hd).
    exists (cn :: cns). split; [by constructor|]. split; [|split].
    + rewrite Hn, Hn1, <- app_assoc. reflexivity.
    + congruence.
    + intros k. rewrite Hd, Hd1. cbn [hinted_names]. rewrite elem_of_union.
      destruct (type_hint node); set_solver.
Qed.

(** ** The first loop *)

Lemma scan_output_Ok (so : gmap string PyVal) (tb tb' : Tables) (out : Tensor) :
  scan_output so tb out = Ok tb' ->
  exists d, map_tf_dtype (t_dtype out) = Ok d
    /\ tb' = set_output_shape (t_name out) (resolved_shape so out)
               (set_dtype (t_name out) d tb).
Proof.
  unfold scan_output. intros Hrun. step_bind Hrun. injection Hrun as <-.
  exists x. split; [done|]. f_equal.
  unfold resolved_shape, dict_get. destruct (so !! t_name out) as [[]|]; reflexivity.
Qed.

Lemma scan_outputs_Ok (so : gmap string PyVal) (outs : list Tensor) (tb tb' : Tables) :
  foldM (scan_output so) tb outs = Ok tb' ->
  onnx_nodes tb' = onnx_nodes tb
  /\ dom (output_shapes tb') = dom (output_shapes tb) ∪ list_to_set (t_name <$> outs)
  /\ dom (dtypes tb') = dom (dtypes tb) ∪ list_to_set (t_name <$> outs).
Proof.
  revert tb. induction outs as [|out outs IH]; intros tb Hrun; simpl in Hrun.
  - injection Hrun as <-. cbn. by rewrite !union_empty_r_L.
  - apply bind_Ok in Hrun as (tb1 & Hout & Hrun).
    apply scan_output_Ok in Hout as (d & _ & ->).
    apply IH in Hrun as (Hn & Hs & Hd). rewrite Hn, Hs, Hd. cbn.
    rewrite !dom_insert_L. split; [done|]. split; set_solver.
Qed.

(** The shape recorded under a name is the one resolved for the last output
    that carries the name. *)
Lemma scan_outputs_shape (so : gmap string PyVal) (pre post : list Tensor) (out : Tensor)
    (tb tb' : Tables) :
  foldM (scan_output so) tb (pre ++ out :: post) = Ok tb' ->
  Forall (fun o => t_name o <> t_name out) post ->
  output_shapes tb' !! t_name out = Some (resolved_shape so out).
Proof.
  rewrite foldM_app. intros Hrun Hpost.
  apply bind_Ok in Hrun as (tb1 & _ & Hrun). simpl in Hrun.
  apply bind_Ok in Hrun as (tb2 & Hout & Hrun).
  apply scan_output_Ok in Hout as (d & _ & ->).
  revert Hrun.
  apply (foldM_invariant (scan_output so)
           (fun tb => output_shapes tb !! t_name out = Some (resolved_shape so out))).
  - intros st o st' Hin Hinv Hstep.
    apply scan_output_Ok in Hstep as (d' & _ & ->). cbn.
    rewrite lookup_insert_ne; [done|].
    rewrite Forall_forall in Hpost. by apply Hpost.
  - cbn. apply lookup_insert_eq.
Qed.

(** ** The whole pass *)

Lemma tflist_to_onnx_Ok (ops : list Node) (so : gmap string PyVal) (tb : Tables) :
  tflist_to_onnx ops so = Ok tb ->
  exists tb0,
    foldM (scan_output so) init_tables (all_outputs ops) = Ok tb0
    /\ foldM convert_node tb0 ops = Ok tb.
Proof.
  unfold tflist_to_onnx. intros Hrun.
  apply bind_Ok in Hrun as (tb0 & Hscan & Hrun).
  exists tb0. split; [|done].
  unfold all_outputs. rewrite <- foldM_concat, foldM_fmap. exact Hscan.
Qed.

Lemma converted_outputs (ops : list Node) (cns : list ConvertedNode) :
  Forall2 converted_from ops cns ->
  concat (cn_output <$> cns) = (t_name <$> all_outputs ops).
Proof.
  unfold all_outputs. induction 1 as [|node cn ops cns Hcn _ IH]; [done|].
  destruct Hcn as (_ & _ & Hout & _). cbn. by rewrite fmap_app, Hout, IH.
Qed.

(** The converted nodes stand one for one for the source nodes. *)
Lemma tflist_to_onnx_nodes (ops : list Node) (so : gmap string PyVal) (tb : Tables) :
  tflist_to_onnx ops so = Ok tb -> Forall2 converted_from ops (onnx_nodes tb).
Proof.
  intros Hrun. apply tflist_to_onnx_Ok in Hrun as (tb0 & Hscan & Hconv).
  apply scan_outputs_Ok in Hscan as (Hn0 & _ & _).
  apply convert_nodes_Ok in Hconv as (cns & Hcns & Hn & _ & _).
  rewrite Hn, Hn0. exact Hcns.
Qed.

(** ** What the attribute loop leaves in [attr] *)

(** No step stores anything under a name that is neither the name of an
    attribute visited nor ["to"]. *)
Lemma convert_attrs_key_absent (node : Node) (l : list string) (k : string)
    (attr attr' : gmap string PyVal) (tb tb' : Tables) :
  foldM (convert_attr node) (attr, tb) l = Ok (attr', tb') ->
  k <> "to" -> (forall a, a ∈ l -> a = k -> a = "DstT" \/ a = "SrcT"
                          \/ (a = "shape" /\ get_tf_shape_attr node = VNone)) ->
  attr !! k = None -> attr' !! k = None.
Proof.
  intros Hrun Hto Hk Hattr.
  apply (foldM_invariant (convert_attr node) (fun st => st.1 !! k = None) l)
    with (st := (attr, tb)) (st' := (attr', tb')); [|done|done].
  intros [attr1 tb1] a [attr2 tb2] Hin Hinv Hstep. cbn in *.
  apply convert_attr_attr in Hstep
    as [(-> & _) | [(v & -> & HD & HS & _ & Hshape & _) | (_ & X & d & _ & _ & ->)]].
  - done.
  - destruct (decide (a = k)) as [Hak|Hak]; [|by rewrite lookup_insert_ne].
    destruct (Hk a Hin Hak) as [?|[?|[Hs Hnone]]]; [done..|].
    destruct (Hshape Hs) as [Hv Hne]. congruence.
  - by rewrite lookup_insert_ne.
Qed.

(** Once the loop is past [DstT], ["to"] holds the mapped type as long as no
    attribute named ["to"] follows. *)
Lemma convert_attrs_to_kept (node : Node) (l : list string) (X d : PyVal)
    (attr attr' : gmap string PyVal) (tb tb' : Tables) :
  foldM (convert_attr node) (attr, tb) l = Ok (attr', tb') ->
  lookup_attr "DstT" (n_attr node) = Some X -> map_tf_dtype X = Ok d ->
  "to" ∉ l ->
  attr !! "to" = Some d -> attr' !! "to" = Some d.
Proof.
  intros Hrun HX Hd Hto Hattr.
  apply (foldM_invariant (convert_attr node) (fun st => st.1 !! "to" = Some d) l)
    with (st := (attr, tb)) (st' := (attr', tb')); [|done|done].
  intros [attr1 tb1] a [attr2 tb2] Hin Hinv Hstep. cbn in *.
  apply convert_attr_attr in Hstep
    as [(-> & _) | [(v & -> & _) | (_ & X' & d' & HX' & Hd' & ->)]].
  - done.
  - rewrite lookup_insert_ne; [done|]. intros ->. by apply Hto.
  - rewrite lookup_insert_eq. congruence.
Qed.

(** Once the loop is past [value], ["value"] holds a payload named after the
    port of the node. *)
Lemma convert_attrs_value_kept (node : Node) (l : list string)
    (attr attr' : gmap string PyVal) (tb tb' : Tables) :
  foldM (convert_attr node) (attr, tb) l = Ok (attr', tb') ->
  (exists p, attr !! "value" = Some (VOnnxTensor p)
             /\ ot_name p = port_name (n_name node)) ->
  exists p, attr' !! "value" = Some (VOnnxTensor p)
            /\ ot_name p = port_name (n_name node).
Proof.
  intros Hrun Hattr.
  apply (foldM_invariant (convert_attr node)
           (fun st => exists p, st.1 !! "value" = Some (VOnnxTensor p)
                                /\ ot_name p = port_name (n_name node)) l)
    with (st := (attr, tb)) (st' := (attr', tb')); [|done|done].
  intros [attr1 tb1] a [attr2 tb2] Hin Hinv Hstep. cbn in *.
  apply convert_attr_attr in Hstep
    as [(-> & _) | [(v & -> & _ & _ & _ & _ & Hval) | (_ & X' & d' & _ & _ & ->)]].
  - done.
  - destruct (decide (a = "value")) as [Ha|Ha]; [|by rewrite lookup_insert_ne].
    destruct (Hval Ha) as (p & -> & Hp). subst a. rewrite lookup_insert_eq. eauto.
  - by rewrite lookup_insert_ne.
Qed.

Lemma convert_attr_value (node : Node) (st : gmap string PyVal * Tables) :
  convert_attr node st "value" =
    (v ← get_tf_node_attr node "value";
     onnx_tensor ← tf_to_onnx_tensor v (port_name (n_name node));
     Ok (<["value" := VOnnxTensor onnx_tensor]> st.1, incr_attr_cnt "value" st.2)).
Proof. reflexivity. Qed.

Lemma convert_attr_DstT (node : Node) (st : gmap string PyVal * Tables) :
  convert_attr node st "DstT" =
    (v ← get_tf_node_attr node "DstT";
     d ← map_tf_dtype v;
     Ok (<["to" := d]> st.1, incr_attr_cnt "DstT" st.2)).
Proof. reflexivity. Qed.

Lemma convert_attr_shape (node : Node) (st : gmap string PyVal * Tables) :
  convert_attr node st "shape" =
    if negb (is_None (get_tf_shape_attr node))
    then Ok (<["shape" := get_tf_shape_attr node]> st.1, incr_attr_cnt "shape" st.2)
    else Ok (st.1, incr_attr_cnt "shape" st.2).
Proof. reflexivity. Qed.

Lemma get_attr_lookup (node : Node) (name : string) (v : PyVal) :
  lookup_attr name (n_attr node) = Some v -> get_tf_node_attr node name = Ok v.
Proof. unfold get_tf_node_attr, get_attr. by intros ->. Qed.

(** ** The claims about the pass *)

(** C1 (amended): after a successful run the output names of the converted
    nodes are exactly the keys of the shape table; the keys of the dtype
    table are these names together with the names of the nodes that carry a
    truthy, non-list type attribute [T]. *)
Theorem tflist_to_onnx_key_sets (ops : list Node) (so : gmap string PyVal) (tb : Tables) :
  tflist_to_onnx ops so = Ok tb ->
  output_names (onnx_nodes tb) = dom (output_shapes tb)
  /\ dom (dtypes tb) = output_names (onnx_nodes tb) ∪ hinted_names ops
  /\ output_names (onnx_nodes tb) ⊆ dom (dtypes tb).
Proof.
  intros Hrun. pose proof (tflist_to_onnx_nodes _ _ _ Hrun) as Hnodes.
  apply tflist_to_onnx_Ok in Hrun as (tb0 & Hscan & Hconv).
  apply scan_outputs_Ok in Hscan as (_ & Hs0 & Hd0).
  apply convert_nodes_Ok in Hconv as (cns & _ & _ & Hs & Hd).
  assert (Hnames : output_names (onnx_nodes tb) = list_to_set (t_name <$> all_outputs ops)).
  { unfold output_names. by rewrite (converted_outputs _ _ Hnodes). }
  cbn in Hs0, Hd0. rewrite dom_empty_L, union_empty_l_L in Hs0, Hd0.
  rewrite Hnames, Hs, Hs0. split; [done|].
  assert (Hdom : dom (dtypes tb) = list_to_set (t_name <$> all_outputs ops) ∪ hinted_names ops).
  { apply set_eq. intros k. rewrite Hd, Hd0, elem_of_union. done. }
  split; [done|]. rewrite Hdom. apply union_subseteq_l.
Qed.

(** C2 (amended): for an output [out] (the last one of its name), an
    override entry that is not [None] is the shape recorded; without an
    entry, or with an entry [None], the static shape of the output is
    recorded, which is the list of its dimensions, or [None] when the rank
    is unknown. *)
Theorem output_shape_resolution (ops : list Node) (so : gmap string PyVal) (tb : Tables)
    (pre post : list Tensor) (out : Tensor) :
  tflist_to_onnx ops so = Ok tb ->
  all_outputs ops = pre ++ out :: post ->
  Forall (fun o => t_name o <> t_name out) post ->
  (forall shape, so !! t_name out = Some shape -> shape <> VNone ->
     output_shapes tb !! t_name out = Some shape)
  /\ (so !! t_name out = None \/ so !! t_name out = Some VNone ->
      output_shapes tb !! t_name out = Some (get_tf_tensor_shape out))
  /\ (forall dims, t_shape out = Some dims ->
        get_tf_tensor_shape out = VList (dim_value <$> dims))
  /\ (t_shape out = None -> get_tf_tensor_shape out = VNone).
Proof.
  intros Hrun Hsplit Hlast.
  apply tflist_to_onnx_Ok in Hrun as (tb0 & Hscan & Hconv).
  rewrite Hsplit in Hscan.
  pose proof (scan_outputs_shape _ _ _ _ _ _ Hscan Hlast) as Hshape.
  apply convert_nodes_Ok in Hconv as (cns & _ & _ & Hs & _).
  rewrite Hs, Hshape. unfold resolved_shape.
  split; [|split; [|split]].
  - intros shape -> Hne. by destruct shape.
  - by intros [-> | ->].
  - intros dims Hd. unfold get_tf_tensor_shape, as_list. by rewrite Hd.
  - intros Hd. unfold get_tf_tensor_shape, as_list. by rewrite Hd.
Qed.

(** C5: a tensor whose array of objects has an element that cannot be
    coerced to text makes [tf_to_onnx_tensor] raise its [RuntimeError]; the
    step of the attribute loop for ["value"] raises it too, and a pass over
    a graph with such a node does not return. *)
Theorem tf_to_onnx_tensor_uncoercible (t : TfTensorProto) (arr : ndarray)
    (elems : list Elem) (e : Elem) :
  MakeNdarray t = Ok arr -> nd_data arr = Objects elems ->
  e ∈ elems -> to_text e = None ->
  (forall name, exists msg,
     tf_to_onnx_tensor (VTensor t) name = Raise (RuntimeError msg))
  /\ (forall node st, lookup_attr "value" (n_attr node) = Some (VTensor t) ->
        exists msg, convert_attr node st "value" = Raise (RuntimeError msg))
  /\ (forall ops so node, node ∈ ops ->
        lookup_attr "value" (n_attr node) = Some (VTensor t) ->
        is_ok (tflist_to_onnx ops so) = false).
Proof.
  intros Harr Hdata Hin Htext.
  assert (Hcodec : forall name, exists msg,
            tf_to_onnx_tensor (VTensor t) name = Raise (RuntimeError msg)).
  { intros name. unfold tf_to_onnx_tensor, get_tf_tensor_data. cbn.
    rewrite Harr. cbn. rewrite Hdata. unfold astype_str_object.
    rewrite (mapM_to_text_None _ _ Hin Htext). cbn.
    destruct elems as [|e0 elems]; [by apply elem_of_nil in Hin|]. cbn. eauto. }
  assert (Hstep : forall node st, lookup_attr "value" (n_attr node) = Some (VTensor t) ->
            exists msg, convert_attr node st "value" = Raise (RuntimeError msg)).
  { intros node st Hval.
    rewrite convert_attr_value, (get_attr_lookup _ _ _ Hval), Ok_bind.
    destruct (Hcodec (port_name (n_name node))) as [msg ->]. rewrite Raise_bind. eauto. }
  split; [done|]. split; [done|].
  intros ops so node Hnode Hval.
  destruct (tflist_to_onnx ops so) as [tb|] eqn:Hrun; [|done]. exfalso.
  apply tflist_to_onnx_Ok in Hrun as (tb0 & _ & Hconv).
  destruct (foldM_Ok_step _ _ _ _ _ Hconv Hnode) as (tb1 & tb2 & Hcn).
  unfold convert_node in Hcn. apply bind_Ok in Hcn as (st & Hattrs & _).
  destruct (foldM_Ok_step _ _ "value" _ _ Hattrs (lookup_attr_Some_key _ _ _ Hval))
    as (st1 & st2 & Hok).
  destruct (Hstep node st1 Hval) as [msg Hraise]. congruence.
Qed.

(** C6 (amended): for a node that carries [DstT] with type code [X], the
    converted attributes hold neither ["DstT"] nor ["SrcT"], the type [X] can
    be mapped, and ["to"] holds the mapped type, provided that no attribute
    of the node that is itself named ["to"] is visited after [DstT]. *)
Theorem cast_attribute_renamed (ops : list Node) (so : gmap string PyVal) (tb : Tables)
    (i : nat) (node : Node) (cn : ConvertedNode) (X : PyVal) :
  tflist_to_onnx ops so = Ok tb ->
  ops !! i = Some node -> onnx_nodes tb !! i = Some cn ->
  lookup_attr "DstT" (n_attr node) = Some X ->
  cn_attr cn !! "DstT" = None
  /\ cn_attr cn !! "SrcT" = None
  /\ exists d, map_tf_dtype X = Ok d
       /\ forall pre post, (n_attr node).*1 = pre ++ "DstT" :: post ->
            "to" ∉ post -> cn_attr cn !! "to" = Some d.
Proof.
  intros Hrun Hnode Hcn HX.
  pose proof (Forall2_lookup_lr _ _ _ _ _ _ (tflist_to_onnx_nodes _ _ _ Hrun) Hnode Hcn)
    as (_ & _ & _ & _ & tb0 & tb1 & Hattrs).
  split; [|split].
  - apply (convert_attrs_key_absent _ _ "DstT" _ _ _ _ Hattrs); [done|auto|done].
  - apply (convert_attrs_key_absent _ _ "SrcT" _ _ _ _ Hattrs); [done|auto|done].
  - destruct (list_elem_of_split _ _ (lookup_attr_Some_key _ _ _ HX))
      as (pre0 & post0 & Hkeys0).
    assert (Hd : exists d, map_tf_dtype X = Ok d).
    { rewrite Hkeys0, foldM_app in Hattrs.
      apply bind_Ok in Hattrs as (st1 & _ & Hattrs). simpl in Hattrs.
      apply bind_Ok in Hattrs as (st2 & Hstep & _).
      rewrite convert_attr_DstT, (get_attr_lookup _ _ _ HX), Ok_bind in Hstep.
      apply bind_Ok in Hstep as (d & Hd & _). eauto. }
    destruct Hd as [d Hd]. exists d. split; [done|].
    intros pre post Hkeys Hto. rewrite Hkeys, foldM_app in Hattrs.
    apply bind_Ok in Hattrs as (st1 & _ & Hattrs). simpl in Hattrs.
    apply bind_Ok in Hattrs as ([attr2 tb2] & Hstep & Hattrs).
    rewrite convert_attr_DstT, (get_attr_lookup _ _ _ HX), Ok_bind, Hd, Ok_bind in Hstep.
    injection Hstep as <- <-.
    apply (convert_attrs_to_kept _ _ X d _ _ _ _ Hattrs); [done..|].
    apply lookup_insert_eq.
Qed.

(** C7: when the attribute ["shape"] of a node is absent, reports unknown
    rank or is no shape at all, [get_tf_shape_attr] returns [None]; the step
    of the attribute loop for ["shape"] then never raises and leaves the
    attributes as they are, and after a successful pass the converted node
    has no ["shape"] entry. *)
Theorem shape_attr_unknown_dropped (node : Node) :
  lookup_attr "shape" (n_attr node) = None
  \/ (exists dim, lookup_attr "shape" (n_attr node) = Some (VShape true dim))
  \/ (exists v, lookup_attr "shape" (n_attr node) = Some v
                /\ forall unknown_rank dim, v <> VShape unknown_rank dim) ->
  get_tf_shape_attr node = VNone
  /\ (forall attr tb,
        convert_attr node (attr, tb) "shape" = Ok (attr, incr_attr_cnt "shape" tb))
  /\ (forall ops so tb i cn,
        tflist_to_onnx ops so = Ok tb ->
        ops !! i = Some node -> onnx_nodes tb !! i = Some cn ->
        cn_attr cn !! "shape" = None).
Proof.
  intros Hshape.
  assert (Hnone : get_tf_shape_attr node = VNone).
  { unfold get_tf_shape_attr, get_tf_shape_attr_try, get_tf_node_attr, get_attr.
    destruct Hshape as [-> | [(dim & ->) | (v & -> & Hv)]]; [done..|].
    rewrite Ok_bind. destruct v; try done. by destruct (Hv unknown_rank dim). }
  split; [done|]. split.
  - intros attr tb. by rewrite convert_attr_shape, Hnone.
  - intros ops so tb i cn Hrun Hnode Hcn.
    pose proof (Forall2_lookup_lr _ _ _ _ _ _ (tflist_to_onnx_nodes _ _ _ Hrun) Hnode Hcn)
      as (_ & _ & _ & _ & tb0 & tb1 & Hattrs).
    apply (convert_attrs_key_absent _ _ "shape" _ _ _ _ Hattrs); [done|auto|done].
Qed.

(** C8 (amended): the payload carries exactly the name that
    [tf_to_onnx_tensor] is given, and the empty name when none is given; it
    is the pass that gives the name: the payload under ["value"] of a
    converted node is named [port_name] of the node's name. *)
Theorem tensor_payload_name :
  (forall tensor name p, tf_to_onnx_tensor tensor name = Ok p -> ot_name p = name)
  /\ (forall tensor p, tf_to_onnx_tensor_default tensor = Ok p -> ot_name p = "")
  /\ (forall ops so tb i node cn,
        tflist_to_onnx ops so = Ok tb ->
        ops !! i = Some node -> onnx_nodes tb !! i = Some cn ->
        "value" ∈ (n_attr node).*1 ->
        exists p, cn_attr cn !! "value" = Some (VOnnxTensor p)
                  /\ ot_name p = port_name (n_name node)).
Proof.
  split; [exact tf_to_onnx_tensor_name|]. split.
  - intros tensor p. apply tf_to_onnx_tensor_name.
  - intros ops so tb i node cn Hrun Hnode Hcn Hval.
    pose proof (Forall2_lookup_lr _ _ _ _ _ _ (tflist_to_onnx_nodes _ _ _ Hrun) Hnode Hcn)
      as (_ & _ & _ & _ & tb0 & tb1 & Hattrs).
    destruct (list_elem_of_split _ _ Hval) as (pre & post & Hkeys).
    rewrite Hkeys, foldM_app in Hattrs.
    apply bind_Ok in Hattrs as (st1 & _ & Hattrs). simpl in Hattrs.
    apply bind_Ok in Hattrs as ([attr2 tb2] & Hstep & Hattrs).
    apply (convert_attrs_value_kept _ _ _ _ _ _ Hattrs).
    rewrite convert_attr_value in Hstep.
    apply bind_Ok in Hstep as (v & _ & Hstep).
    apply bind_Ok in Hstep as (p & Hp & Hstep). injection Hstep as <- _.
    exists p. split; [apply lookup_insert_eq | by eapply tf_to_onnx_tensor_name].
Qed.

End Properties.

(** C1, as the claim states it, fails: a node [n] with output [n:0] and a
    type attribute [T] leaves the key [n] in the dtype table, and [n] is the
    name of no output of a converted node. *)
Lemma dtypes_keys_exceed_output_names :
  exists tb,
    @tflist_to_onnx sample_externals [identity_node] ∅ = Ok tb
    /\ output_names (onnx_nodes tb) <> dom (dtypes tb).
Proof.
  pose proof (eq_refl : run_get (fun tb => dtypes tb !! "n")
      (@tflist_to_onnx sample_externals [identity_node] ∅) = Some (Some (VInt 1))) as Hd.
  pose proof (eq_refl : run_get (fun tb => concat (cn_output <$> onnx_nodes tb))
      (@tflist_to_onnx sample_externals [identity_node] ∅) = Some ["n:0"]) as Hn.
  destruct (@tflist_to_onnx sample_externals [identity_node] ∅) as [tb|e];
    [|discriminate Hd].
  injection Hd as Hd. injection Hn as Hn.
  exists tb. split; [reflexivity|]. intros Heq.
  assert (Hin : "n" ∈ dom (dtypes tb)) by (apply elem_of_dom; eauto).
  rewrite <- Heq in Hin. unfold output_names in Hin.
  rewrite Hn, elem_of_list_to_set, list_elem_of_singleton in Hin. discriminate Hin.
Qed.

Lemma tflist_to_onnx_key_sets_witness :
  let tb := run_value init_tables (@tflist_to_onnx sample_externals [identity_node] ∅) in
  output_names (onnx_nodes tb) = dom (output_shapes tb)
  /\ dom (dtypes tb) = output_names (onnx_nodes tb) ∪ hinted_names [identity_node]
  /\ output_names (onnx_nodes tb) ⊆ dom (dtypes tb).
Proof.
  intros tb.
  apply (@tflist_to_onnx_key_sets sample_externals [identity_node] ∅ tb).
  vm_compute. reflexivity.
Defined.

(** C2, as the claim states it, fails: the override table has an entry for
    [n:0], the value [None], and the shape recorded for [n:0] is the static
    shape of the output, not the entry. *)
Lemma override_entry_None_not_recorded :
  exists tb shape,
    @tflist_to_onnx sample_externals [identity_node] {["n:0" := VNone]} = Ok tb
    /\ ({["n:0" := VNone]} : gmap string PyVal) !! "n:0" = Some shape
    /\ output_shapes tb !! "n:0" <> Some shape.
Proof.
  pose proof (eq_refl : run_get (fun tb => output_shapes tb !! "n:0")
      (@tflist_to_onnx sample_externals [identity_node] {["n:0" := VNone]})
      = Some (Some (VList [VInt 2; VNone]))) as Hs.
  destruct (@tflist_to_onnx sample_externals [identity_node] {["n:0" := VNone]})
    as [tb|e]; [|discriminate Hs].
  injection Hs as Hs. exists tb, VNone.
  split; [reflexivity|]. split; [reflexivity|]. rewrite Hs. discriminate.
Qed.

Lemma output_shape_resolution_witness :
  let so : gmap string PyVal := {["n:0" := VList [VInt 5]]} in
  let tb := run_value init_tables (@tflist_to_onnx sample_externals [identity_node] so) in
  output_shapes tb !! "n:0" = Some (VList [VInt 5]).
Proof.
  intros so tb.
  refine (proj1 (@output_shape_resolution sample_externals [identity_node] so tb []
                   [] (mk_tensor "n:0" (VInt types_pb2.DT_FLOAT) (Some [Some 2%Z; None]))
                   _ _ _) (VList [VInt 5]) _ _).
  - vm_compute. reflexivity.
  - reflexivity.
  - constructor.
  - vm_compute. reflexivity.
  - discriminate.
Defined.

Lemma tf_to_onnx_tensor_uncoercible_witness :
  (forall name, exists msg,
     @tf_to_onnx_tensor sample_externals (VTensor bad_string_tensor) name
       = Raise (RuntimeError msg))
  /\ is_ok (@tflist_to_onnx sample_externals [const_node; bad_const_node] ∅) = false.
Proof.
  pose proof (@tf_to_onnx_tensor_uncoercible sample_externals bad_string_tensor
                (mk_ndarray [] (Objects [EBytes [104; 255]%Z]))
                [EBytes [104; 255]%Z] (EBytes [104; 255]%Z)
                eq_refl eq_refl (list_elem_of_here _ _) eq_refl) as (Hcodec & _ & Hpass).
  split; [exact Hcodec|].
  apply (Hpass [const_node; bad_const_node] ∅ bad_const_node).
  - apply list_elem_of_further, list_elem_of_here.
  - reflexivity.
Defined.

(** C6, as the claim states it, fails: a node with [DstT] = [DT_INT32] that
    also has an attribute named [to], visited after [DstT], converts to a
    node whose ["to"] is the raw value of that attribute and not the mapped
    type. *)
Lemma cast_to_overwritten :
  exists tb cn,
    @tflist_to_onnx sample_externals [cast_node] ∅ = Ok tb
    /\ onnx_nodes tb !! 0 = Some cn
    /\ lookup_attr "DstT" (n_attr cast_node) = Some (VInt types_pb2.DT_INT32)
    /\ map_tf_dtype (VInt types_pb2.DT_INT32) = Ok (VInt TensorProto.INT32)
    /\ cn_attr cn !! "to" <> Some (VInt TensorProto.INT32).
Proof.
  pose proof (eq_refl : run_get (fun tb : Tables =>
                                  match onnx_nodes tb !! 0%nat with
                                  | Some cn => cn_attr cn !! "to"
                                  | None => None
                                  end)
      (@tflist_to_onnx sample_externals [cast_node] ∅)
      = Some (Some (VInt 5))) as Hto.
  destruct (@tflist_to_onnx sample_externals [cast_node] ∅) as [tb|e]; [|discriminate Hto].
  injection Hto as Hto.
  destruct (onnx_nodes tb !! 0%nat) as [cn|] eqn:Hcn; [|discriminate Hto].
  exists tb, cn.
  split; [reflexivity|]. split; [exact Hcn|]. split; [reflexivity|].
  split; [reflexivity|]. rewrite Hto. discriminate.
Qed.

Lemma cast_attribute_renamed_witness :
  let tb := run_value init_tables (@tflist_to_onnx sample_externals [plain_cast_node] ∅) in
  let cn := mk_onnx_node "Cast" [] ["c:0"] "c" {["to" := VInt TensorProto.INT32]} in
  cn_attr cn !! "DstT" = None
  /\ cn_attr cn !! "SrcT" = None
  /\ exists d, map_tf_dtype (VInt types_pb2.DT_INT32) = Ok d
       /\ forall pre post, (n_attr plain_cast_node).*1 = pre ++ "DstT" :: post ->
            "to" ∉ post -> cn_attr cn !! "to" = Some d.
Proof.
  intros tb cn.
  apply (@cast_attribute_renamed sample_externals [plain_cast_node] ∅ tb 0 plain_cast_node cn).
  - vm_compute. reflexivity.
  - reflexivity.
  - vm_compute. reflexivity.
  - reflexivity.
Defined.

Lemma shape_attr_unknown_dropped_witness :
  get_tf_shape_attr placeholder_node = VNone
  /\ let tb := run_value init_tables (@tflist_to_onnx sample_externals [placeholder_node] ∅) in
     let cn := mk_onnx_node "Placeholder" [] ["p:0"] "p" {["dtype" := VInt TensorProto.FLOAT]} in
     cn_attr cn !! "shape" = None.
Proof.
  pose proof (@shape_attr_unknown_dropped sample_externals placeholder_node
                (or_intror (or_introl (ex_intro _ [] eq_refl)))) as (Hnone & _ & Hpass).
  split; [exact Hnone|]. intros tb cn.
  apply (Hpass [placeholder_node] ∅ tb 0 cn).
  - vm_compute. reflexivity.
  - reflexivity.
  - vm_compute. reflexivity.
Defined.

(** C8, as the claim states it, fails: converted without a name, the payload
    of a tensor carries the empty name. *)
Lemma unnamed_tensor_payload_empty_name :
  exists p,
    @tf_to_onnx_tensor_default sample_externals (VTensor int_tensor) = Ok p
    /\ ot_name p = "".
Proof. eexists. split; reflexivity. Qed.

Lemma tensor_payload_name_witness :
  (forall p, @tf_to_onnx_tensor sample_externals (VTensor int_tensor) "k:0" = Ok p ->
             ot_name p = "k:0")
  /\ let tb := run_value init_tables (@tflist_to_onnx sample_externals [const_node] ∅) in
     exists cn p, onnx_nodes tb !! 0 = Some cn
       /\ cn_attr cn !! "value" = Some (VOnnxTensor p) /\ ot_name p = "k:0".
Proof.
  pose proof (@tensor_payload_name sample_externals) as (Hname & _ & Hpass).
  split; [exact (Hname (VTensor int_tensor) "k:0")|]. intros tb.
  destruct (onnx_nodes tb !! 0) as [cn|] eqn:Hcn; [|discriminate Hcn].
  destruct (Hpass [const_node] ∅ tb 0 const_node cn) as (p & Hp & Hn).
  - vm_compute. reflexivity.
  - reflexivity.
  - exact Hcn.
  - apply list_elem_of_here.
  - exists cn, p. repeat split; [exact Hp | exact Hn].
Defined.

(** * Further properties of the module *)

Section MoreProperties.
Context `{Externals}.

Ltac attr_case a lit :=
  let E := fresh "E" in
  destruct (String.eqb_spec a lit) as [E|E]; [subst a|].

Ltac open_bind H :=
  let x := fresh "x" in
  let Hx := fresh "Hx" in
  apply bind_Ok in H as (x & Hx & H).

(** One successful step of the attribute loop, in full: what it does to the
    tables and what it does to the [attr] dict. *)
Lemma convert_attr_step (node : Node) (attr attr' : gmap string PyVal)
    (tb tb' : Tables) (a : string) :
  convert_attr node (attr, tb) a = Ok (attr', tb') ->
  (exists h : option PyVal,
     tb' = match h with
           | Some d => set_dtype (n_name node) d (incr_attr_cnt a tb)
           | None => incr_attr_cnt a tb
           end
     /\ match h with
        | Some d => a = "T" /\ type_hint node = true
                    /\ exists T, lookup_attr "T" (n_attr node) = Some T
                                 /\ map_tf_dtype T = Ok d
        | None => a <> "T" \/ type_hint node = false
        end)
  /\ ((attr' = attr
       /\ (dropped_attr a = true \/ (a = "shape" /\ get_tf_shape_attr node = VNone)))
      \/ (a = "DstT"
          /\ exists X d, lookup_attr "DstT" (n_attr node) = Some X
               /\ map_tf_dtype X = Ok d /\ attr' = <["to" := d]> attr)
      \/ (exists v, attr' = <[a := v]> attr /\ dropped_attr a = false /\ a <> "DstT"
            /\ (type_attr a = true ->
                exists raw, lookup_attr a (n_attr node) = Some raw
                            /\ map_tf_dtype raw = Ok v)
            /\ (a = "shape" -> v = get_tf_shape_attr node /\ v <> VNone)
            /\ (special_attr a = false -> lookup_attr a (n_attr node) = Some v))).
Proof.
  unfold convert_attr. cbn [fst snd]. intros Hstep.
  attr_case a "dtype".
  { open_bind Hstep. open_bind Hstep. injection Hstep as <- <-.
    apply get_attr_Ok in Hx. split; [exists None; split; [done | by left]|].
    right; right. eexists. split; [reflexivity|]. repeat split; try done.
    intros _. eauto. }
  attr_case a "T".
  { open_bind Hstep. apply get_attr_Ok in Hx. split.
    - unfold type_hint. rewrite Hx.
      destruct (truthy x); cbn [andb];
        [|injection Hstep as <- <-; exists None; split; [done | by right]].
      destruct (isinstance_list x); cbn [negb] in *;
        [injection Hstep as <- <-; exists None; split; [done | by right]|].
      open_bind Hstep. injection Hstep as <- <-.
      exists (Some x0). split; [done|]. repeat split. eauto.
    - left. split; [|by left].
      destruct (truthy x); [|by injection Hstep as <- <-].
      destruct (negb (isinstance_list x)); [|by injection Hstep as <- <-].
      open_bind Hstep. by injection Hstep as <- <-. }
  destruct (str_in a ["output_type"; "output_dtype"; "out_type"; "Tidx"; "out_idx"])
    eqn:Hin.
  { open_bind Hstep. open_bind Hstep. injection Hstep as <- <-.
    apply get_attr_Ok in Hx. split; [exists None; split; [done | by left]|].
    right; right. eexists. split; [reflexivity|].
    assert (Hraw : exists raw, lookup_attr a (n_attr node) = Some raw
                               /\ map_tf_dtype raw = Ok x0) by eauto.
    clear Hx Hx0 E E0.
    unfold str_in in Hin; cbn [existsb] in Hin;
      repeat (apply orb_prop in Hin as [Hin|Hin]);
      try discriminate Hin; apply String.eqb_eq in Hin; subst a;
      repeat split; done. }
  attr_case a "shape".
  { destruct (get_tf_shape_attr node) eqn:Hshape; cbn [is_None negb] in Hstep;
      injection Hstep as <- <-;
      (split; [exists None; split; [done | by left]|]);
      first [ left; split; [done | by right]
            | right; right; eexists; split; [reflexivity|]; repeat split; done ]. }
  attr_case a "Tperm".
  { injection Hstep as <- <-. split; [exists None; split; [done | by left]|].
    left. split; [done | by left]. }
  attr_case a "value".
  { open_bind Hstep. open_bind Hstep. injection Hstep as <- <-.
    split; [exists None; split; [done | by left]|].
    right; right. eexists. split; [reflexivity|]. repeat split; done. }
  attr_case a "DstT".
  { open_bind Hstep. open_bind Hstep. injection Hstep as <- <-.
    apply get_attr_Ok in Hx. split; [exists None; split; [done | by left]|].
    right; left. split; [done|]. eauto. }
  attr_case a "SrcT".
  { injection Hstep as <- <-. split; [exists None; split; [done | by left]|].
    left. split; [done | by left]. }
  destruct (str_in a ignored_attr) eqn:Hign.
  { injection Hstep as <- <-. split; [exists None; split; [done | by left]|].
    left. split; [done|]. left. unfold dropped_attr. rewrite Hign. apply orb_true_r. }
  open_bind Hstep. injection Hstep as <- <-. apply get_attr_Ok in Hx.
  split; [exists None; split; [done | by left]|].
  right; right. exists x. split; [reflexivity|].
  assert (Hd : dropped_attr a = false).
  { unfold dropped_attr. rewrite Hign, orb_false_r.
    unfold str_in. cbn [existsb].
    repeat match goal with
           | |- context [String.eqb a ?lit] =>
               destruct (String.eqb_spec a lit) as [->|_]; [done|]
           end.
    reflexivity. }
  assert (Ht : type_attr a = false).
  { unfold type_attr, str_in in *. cbn [existsb] in *.
    rewrite Hin. destruct (String.eqb_spec a "dtype") as [->|_]; done. }
  repeat split; try done. rewrite Ht. discriminate.
Qed.

Lemma type_attr_not_dropped (a : string) :
  type_attr a = true -> dropped_attr a = false /\ a <> "DstT" /\ a <> "shape" /\ a <> "to".
Proof.
  unfold type_attr, str_in. cbn [existsb]. intros Hin.
  repeat (apply orb_prop in Hin as [Hin|Hin]);
    try discriminate Hin; apply String.eqb_eq in Hin; subst a; repeat split; done.
Qed.

Lemma not_special_attr (a : string) :
  special_attr a = false ->
  dropped_attr a = false /\ type_attr a = false
  /\ a <> "shape" /\ a <> "value" /\ a <> "DstT".
Proof.
  unfold special_attr. intros Hs.
  apply orb_false_elim in Hs as [Hs Hd]. apply orb_false_elim in Hs as [Ht Hs].
  unfold str_in in Hs. cbn [existsb] in Hs.
  repeat split; try done; intros ->; discriminate Hs.
Qed.

(** The keys of [attr] after the attribute loop over the names [l]. *)
Lemma convert_attrs_dom (node : Node) (l : list string)
    (attr attr' : gmap string PyVal) (tb tb' : Tables) :
  foldM (convert_attr node) (attr, tb) l = Ok (attr', tb') ->
  forall k, k ∈ dom attr' <->
    k ∈ dom attr
    \/ (k ∈ l /\ dropped_attr k = false /\ k <> "DstT"
        /\ (k = "shape" -> get_tf_shape_attr node <> VNone))
    \/ (k = "to" /\ "DstT" ∈ l).
Proof.
  revert attr tb. induction l as [|a l IH]; intros attr tb Hrun k; simpl in Hrun.
  - injection Hrun as <- <-. split; [by left|].
    intros [?|[(Hin & _)|(_ & Hin)]]; [done|by apply elem_of_nil in Hin..].
  - apply bind_Ok in Hrun as ([attr1 tb1] & Hstep & Hrun).
    rewrite (IH _ _ Hrun k), !elem_of_cons. clear IH Hrun.
    apply convert_attr_step in Hstep as [_ Hattr].
    destruct Hattr as [(-> & Hno) | [(-> & X & d & _ & _ & ->)
                                    | (v & -> & Hd & HD & _ & Hs & _)]].
    + split; [tauto|]. intros [?|[([->|?] & Hk & HkD & Hks)|(-> & [?|?])]]; try tauto.
      * destruct Hno as [Hno|[-> Hnone]]; [congruence|]. by destruct (Hks eq_refl).
      * subst a. destruct Hno as [Hno|[? _]]; discriminate.
    + rewrite dom_insert_L, elem_of_union, elem_of_singleton. split; [tauto|].
      intros [?|[([->|?] & Hk & HkD & Hks)|(-> & _)]]; tauto.
    + rewrite dom_insert_L, elem_of_union, elem_of_singleton. split.
      * intros [[->|?]|?]; [|tauto..]. right; left. repeat split; try tauto.
        intros Hshape. by destruct (Hs Hshape) as [<- ?].
      * intros [?|[([->|?] & Hk & HkD & Hks)|(-> & [?|?])]]; try tauto. congruence.
Qed.

(** A name other than ["to"] is written by its own step only: if every
    successful step for [k] leaves [v] under [k], the loop does. *)
Lemma convert_attrs_key_value (node : Node) (l : list string) (k : string) (v : PyVal)
    (attr attr' : gmap string PyVal) (tb tb' : Tables) :
  k <> "to" ->
  (forall attr0 tb0 attr1 tb1,
     convert_attr node (attr0, tb0) k = Ok (attr1, tb1) -> attr1 !! k = Some v) ->
  k ∈ l ->
  foldM (convert_attr node) (attr, tb) l = Ok (attr', tb') ->
  attr' !! k = Some v.
Proof.
  intros Hto Hown Hin Hrun.
  destruct (list_elem_of_split _ _ Hin) as (pre & post & ->).
  rewrite foldM_app in Hrun. apply bind_Ok in Hrun as (st1 & _ & Hrun). simpl in Hrun.
  apply bind_Ok in Hrun as ([attr2 tb2] & Hstep & Hrun). destruct st1 as [attr1 tb1].
  apply Hown in Hstep.
  apply (foldM_invariant (convert_attr node) (fun st => st.1 !! k = Some v) post)
    with (st := (attr2, tb2)) (st' := (attr', tb')); [|done|done].
  intros [attr3 tb3] a [attr4 tb4] _ Hinv Hnext. cbn in *.
  destruct (decide (a = k)) as [->|Hne]; [by eapply Hown|].
  apply convert_attr_step in Hnext as [_ Hattr].
  destruct Hattr as [(-> & _) | [(_ & X & d & _ & _ & ->) | (w & -> & _)]];
    [done | by rewrite lookup_insert_ne | by rewrite lookup_insert_ne].
Qed.

Lemma converted_node_attrs (ops : list Node) (so : gmap string PyVal) (tb : Tables)
    (i : nat) (node : Node) (cn : ConvertedNode) :
  tflist_to_onnx ops so = Ok tb ->
  ops !! i = Some node -> onnx_nodes tb !! i = Some cn ->
  exists tb0 tb1,
    foldM (convert_attr node) (∅, tb0) ((n_attr node).*1) = Ok (cn_attr cn, tb1).
Proof.
  intros Hrun Hnode Hcn.
  by pose proof (Forall2_lookup_lr _ _ _ _ _ _ (tflist_to_onnx_nodes _ _ _ Hrun) Hnode Hcn)
    as (_ & _ & _ & _ & Hattrs).
Qed.

(** ** The attributes of a converted node *)

(** X1: the names in the attribute mapping of a converted node are exactly
    the names of the node's attributes that are not dropped (not [T],
    [Tperm], [SrcT], [DstT] or on the ignore list, and not a [shape] that
    parses to [None]), plus ["to"] when the node carries [DstT]. *)
Theorem converted_attr_names (ops : list Node) (so : gmap string PyVal) (tb : Tables)
    (i : nat) (node : Node) (cn : ConvertedNode) :
  tflist_to_onnx ops so = Ok tb ->
  ops !! i = Some node -> onnx_nodes tb !! i = Some cn ->
  forall k, k ∈ dom (cn_attr cn) <->
    (k ∈ (n_attr node).*1 /\ dropped_attr k = false /\ k <> "DstT"
     /\ (k = "shape" -> get_tf_shape_attr node <> VNone))
    \/ (k = "to" /\ "DstT" ∈ (n_attr node).*1).
Proof.
  intros Hrun Hnode Hcn k.
  destruct (converted_node_attrs _ _ _ _ _ _ Hrun Hnode Hcn) as (tb0 & tb1 & Hattrs).
  rewrite (convert_attrs_dom _ _ _ _ _ _ Hattrs k), dom_empty_L.
  split; [intros [Hk|?]; [by apply not_elem_of_empty in Hk | done] | by right].
Qed.

(** X2: an attribute that no branch singles out, and that is not named
    ["to"], is copied as it is. *)
Theorem plain_attr_copied (ops : list Node) (so : gmap string PyVal) (tb : Tables)
    (i : nat) (node : Node) (cn : ConvertedNode) (k : string) (raw : PyVal) :
  tflist_to_onnx ops so = Ok tb ->
  ops !! i = Some node -> onnx_nodes tb !! i = Some cn ->
  lookup_attr k (n_attr node) = Some raw ->
  special_attr k = false -> k <> "to" ->
  cn_attr cn !! k = Some raw.
Proof.
  intros Hrun Hnode Hcn Hraw Hplain Hto.
  destruct (converted_node_attrs _ _ _ _ _ _ Hrun Hnode Hcn) as (tb0 & tb1 & Hattrs).
  apply (convert_attrs_key_value node ((n_attr node).*1) k raw ∅ (cn_attr cn) tb0 tb1 Hto);
    [|by eapply lookup_attr_Some_key|done].
  intros attr0 tb2 attr1 tb3 Hstep.
  destruct (not_special_attr _ Hplain) as (Hd & _ & _ & _ & HD).
  apply convert_attr_step in Hstep as [_ Hattr].
  destruct Hattr as [(_ & [?|[-> _]]) | [(? & _) | (v & -> & _ & _ & _ & _ & Hv)]];
    [congruence | discriminate Hplain | done |].
  rewrite lookup_insert_eq. rewrite (Hv Hplain) in Hraw. done.
Qed.

(** X3: an attribute that denotes a type ([dtype], [output_type],
    [output_dtype], [out_type], [Tidx], [out_idx]) is stored under its own
    name with its value mapped by [map_tf_dtype]. *)
Theorem type_attr_mapped (ops : list Node) (so : gmap string PyVal) (tb : Tables)
    (i : nat) (node : Node) (cn : ConvertedNode) (k : string) (raw : PyVal) :
  tflist_to_onnx ops so = Ok tb ->
  ops !! i = Some node -> onnx_nodes tb !! i = Some cn ->
  lookup_attr k (n_attr node) = Some raw ->
  type_attr k = true ->
  exists d, map_tf_dtype raw = Ok d /\ cn_attr cn !! k = Some d.
Proof.
  intros Hrun Hnode Hcn Hraw Htype.
  destruct (converted_node_attrs _ _ _ _ _ _ Hrun Hnode Hcn) as (tb0 & tb1 & Hattrs).
  destruct (type_attr_not_dropped _ Htype) as (Hd & HD & Hs & Hto).
  assert (Hown : forall attr0 tb2 attr1 tb3,
            convert_attr node (attr0, tb2) k = Ok (attr1, tb3) ->
            exists d, map_tf_dtype raw = Ok d /\ attr1 !! k = Some d).
  { intros attr0 tb2 attr1 tb3 Hstep.
    apply convert_attr_step in Hstep as [_ Hattr].
    destruct Hattr as [(_ & [?|[? _]]) | [(? & _) | (v & -> & _ & _ & Hv & _)]];
      [congruence | done | done |].
    destruct (Hv Htype) as (raw' & Hraw' & Hmap). rewrite Hraw in Hraw'.
    injection Hraw' as <-. exists v. by rewrite lookup_insert_eq. }
  pose proof (lookup_attr_Some_key _ _ _ Hraw) as Hin.
  destruct (foldM_Ok_step _ _ k _ _ Hattrs Hin) as ([attr0 tb2] & [attr1 tb3] & Hstep).
  destruct (Hown _ _ _ _ Hstep) as (d & Hmap & _). exists d. split; [done|].
  apply (convert_attrs_key_value node ((n_attr node).*1) k d ∅ (cn_attr cn) tb0 tb1 Hto); [|done|done].
  intros attr2 tb4 attr3 tb5 Hstep'.
  destruct (Hown _ _ _ _ Hstep') as (d' & Hmap' & Hk). congruence.
Qed.

(** X4: [get_tf_shape_attr] returns the list of the declared dimensions,
    unknown ones included as they are, exactly when the attribute is a shape
    of known rank; after a successful pass the converted node holds that
    list under ["shape"]. *)
Theorem shape_attr_known_rank (node : Node) :
  (forall dims, get_tf_shape_attr node = VList dims <->
     exists dim, lookup_attr "shape" (n_attr node) = Some (VShape false dim)
                 /\ dims = (VInt <$> dim))
  /\ (forall dim ops so tb i cn,
        lookup_attr "shape" (n_attr node) = Some (VShape false dim) ->
        tflist_to_onnx ops so = Ok tb ->
        ops !! i = Some node -> onnx_nodes tb !! i = Some cn ->
        cn_attr cn !! "shape" = Some (VList (VInt <$> dim))).
Proof.
  assert (Hknown : forall dim, lookup_attr "shape" (n_attr node) = Some (VShape false dim) ->
            get_tf_shape_attr node = VList (VInt <$> dim)).
  { intros dim Hs.
    unfold get_tf_shape_attr, get_tf_shape_attr_try, get_tf_node_attr, get_attr.
    by rewrite Hs. }
  split.
  - intros dims. split; [|by intros (dim & Hs & ->); apply Hknown].
    unfold get_tf_shape_attr, get_tf_shape_attr_try, get_tf_node_attr, get_attr.
    destruct (lookup_attr "shape" (n_attr node)) as [v|]; [|discriminate].
    rewrite Ok_bind. destruct v as [| | | | |unknown_rank dim| |]; try discriminate.
    destruct unknown_rank; [discriminate|]. cbn. intros [= <-]. eauto.
  - intros dim ops so tb i cn Hs Hrun Hnode Hcn.
    destruct (converted_node_attrs _ _ _ _ _ _ Hrun Hnode Hcn) as (tb0 & tb1 & Hattrs).
    apply (convert_attrs_key_value node ((n_attr node).*1) "shape" _ ∅ (cn_attr cn) tb0 tb1 ltac:(done));
      [|by eapply lookup_attr_Some_key|done].
    intros attr0 tb2 attr1 tb3 Hstep.
    rewrite convert_attr_shape, (Hknown _ Hs) in Hstep. cbn in Hstep.
    injection Hstep as <- _. apply lookup_insert_eq.
Qed.

(** ** When the pass fails *)

Lemma elem_of_all_outputs (ops : list Node) (node : Node) (out : Tensor) :
  node ∈ ops -> out ∈ n_outputs node -> out ∈ all_outputs ops.
Proof.
  unfold all_outputs. intros Hnode Hout.
  induction ops as [|n ops IH]; [by apply elem_of_nil in Hnode|].
  cbn. apply elem_of_app. apply elem_of_cons in Hnode as [<-|Hnode]; [by left | right; auto].
Qed.

(** X5: a node that carries an attribute called [name] cannot be converted:
    the attribute is copied into the keyword arguments of [make_node], where
    it collides with [name=node.name]. *)
Theorem name_attr_aborts (ops : list Node) (so : gmap string PyVal) (node : Node) :
  node ∈ ops -> "name" ∈ (n_attr node).*1 ->
  is_ok (tflist_to_onnx ops so) = false.
Proof.
  intros Hnode Hname.
  destruct (tflist_to_onnx ops so) as [tb|] eqn:Hrun; [|done]. exfalso.
  apply tflist_to_onnx_Ok in Hrun as (tb0 & _ & Hconv).
  destruct (foldM_Ok_step _ _ _ _ _ Hconv Hnode) as (tb1 & tb2 & Hcn).
  unfold convert_node in Hcn. apply bind_Ok in Hcn as ([attr tb3] & Hattrs & Hcn).
  apply bind_Ok in Hcn as (cn & Hmake & _).
  unfold make_node in Hmake.
  destruct (attr !! "name") eqn:Hattr; [discriminate|].
  apply not_elem_of_dom in Hattr. apply Hattr.
  apply (convert_attrs_dom _ _ _ _ _ _ Hattrs). right; left. repeat split; done.
Qed.

(** X6: a type code that [map_tf_dtype] rejects aborts the pass, wherever
    it sits: on an output of a node, in a type attribute, in [DstT], or in a
    truthy, non-list [T]. *)
Theorem unsupported_type_aborts (ops : list Node) (so : gmap string PyVal)
    (node : Node) (e : exn) :
  node ∈ ops ->
  (exists out, out ∈ n_outputs node /\ map_tf_dtype (t_dtype out) = Raise e)
  \/ (exists a raw, lookup_attr a (n_attr node) = Some raw
        /\ map_tf_dtype raw = Raise e
        /\ (type_attr a = true \/ a = "DstT"
            \/ (a = "T" /\ isinstance_list raw = false))) ->
  is_ok (tflist_to_onnx ops so) = false.
Proof.
  intros Hnode Hbad.
  destruct (tflist_to_onnx ops so) as [tb|] eqn:Hrun; [|done]. exfalso.
  apply tflist_to_onnx_Ok in Hrun as (tb0 & Hscan & Hconv).
  destruct Hbad as [(out & Hout & Hmap) | (a & raw & Hraw & Hmap & Hkind)].
  - pose proof (elem_of_all_outputs _ _ _ Hnode Hout) as Hin.
    destruct (foldM_Ok_step _ _ _ _ _ Hscan Hin) as (tb1 & tb2 & Hstep).
    apply scan_output_Ok in Hstep as (d & Hd & _). congruence.
  - destruct (foldM_Ok_step _ _ _ _ _ Hconv Hnode) as (tb1 & tb2 & Hcn).
    unfold convert_node in Hcn. apply bind_Ok in Hcn as ([attr tb3] & Hattrs & _).
    destruct (foldM_Ok_step _ _ a _ _ Hattrs (lookup_attr_Some_key _ _ _ Hraw))
      as ([attr0 tb4] & [attr1 tb5] & Hstep).
    apply convert_attr_step in Hstep as [(h & _ & Hh) Hattr].
    destruct Hkind as [Htype | [-> | [-> Hlist]]].
    + destruct (type_attr_not_dropped _ Htype) as (Hd & HD & Hs & _).
      destruct Hattr as [(_ & [?|[? _]]) | [(? & _) | (v & _ & _ & _ & Hv & _)]];
        [congruence | done | done |].
      destruct (Hv Htype) as (raw' & Hraw' & Hmap'). congruence.
    + destruct Hattr as [(_ & [?|[? _]]) | [(_ & X & d & HX & Hd & _) | (v & _ & _ & ? & _)]];
        [discriminate | discriminate | congruence | done].
    + assert (Htruthy : truthy raw = true).
      { unfold map_tf_dtype in Hmap. by destruct (truthy raw). }
      destruct h as [d|].
      * destruct Hh as (_ & _ & T & HT & Hd). congruence.
      * destruct Hh as [?|Hhint]; [done|]. unfold type_hint in Hhint.
        rewrite Hraw, Htruthy, Hlist in Hhint. discriminate.
Qed.

(** ** Counters *)

Lemma counter_incr_lookup (x k : string) (m : gmap string nat) :
  counter_incr x m !! k =
    if String.eqb k x then Some (S (default 0 (m !! k))) else m !! k.
Proof.
  unfold counter_incr. destruct (String.eqb_spec k x) as [->|Hne].
  - apply lookup_insert_eq.
  - by rewrite lookup_insert_ne.
Qed.

Lemma counter_fold_lookup (l : list string) (m : gmap string nat) (k : string) :
  fold_left (fun m x => counter_incr x m) l m !! k =
    match occurrences k l with
    | O => m !! k
    | S n => Some (default 0 (m !! k) + S n)
    end.
Proof.
  revert m. induction l as [|x l IH]; intros m; [reflexivity|].
  cbn [fold_left]. rewrite IH, counter_incr_lookup. unfold occurrences. cbn [List.filter].
  destruct (String.eqb k x); cbn [length default].
  - destruct (length (List.filter (String.eqb k) l)); f_equal; cbv [id]; lia.
  - reflexivity.
Qed.

Lemma counter_fold_empty (l : list string) (k : string) :
  fold_left (fun m x => counter_incr x m) l ∅ !! k = counter_entry (occurrences k l).
Proof.
  rewrite counter_fold_lookup, lookup_empty. by destruct (occurrences k l).
Qed.

Lemma convert_attrs_counters (node : Node) (l : list string)
    (attr attr' : gmap string PyVal) (tb tb' : Tables) :
  foldM (convert_attr node) (attr, tb) l = Ok (attr', tb') ->
  op_cnt tb' = op_cnt tb
  /\ attr_cnt tb' = fold_left (fun m a => counter_incr a m) l (attr_cnt tb).
Proof.
  revert attr tb. induction l as [|a l IH]; intros attr tb Hrun; simpl in Hrun.
  - by injection Hrun as <- <-.
  - apply bind_Ok in Hrun as ([attr1 tb1] & Hstep & Hrun).
    apply IH in Hrun as [-> ->].
    apply convert_attr_step in Hstep as [(h & -> & _) _]. by destruct h.
Qed.

Lemma scan_outputs_counters (so : gmap string PyVal) (outs : list Tensor) (tb tb' : Tables) :
  foldM (scan_output so) tb outs = Ok tb' ->
  op_cnt tb' = op_cnt tb /\ attr_cnt tb' = attr_cnt tb.
Proof.
  apply (foldM_invariant (scan_output so)
           (fun st => op_cnt st = op_cnt tb /\ attr_cnt st = attr_cnt tb)); [|done].
  intros st o st' _ Hinv Hstep. by apply scan_output_Ok in Hstep as (d & _ & ->).
Qed.

Lemma convert_nodes_counters (ops : list Node) (tb tb' : Tables) :
  foldM convert_node tb ops = Ok tb' ->
  op_cnt tb' = fold_left (fun m x => counter_incr x m) (n_type <$> ops) (op_cnt tb)
  /\ attr_cnt tb' =
       fold_left (fun m x => counter_incr x m)
         (concat ((fun node => (n_attr node).*1) <$> ops)) (attr_cnt tb).
Proof.
  revert tb. induction ops as [|node ops IH]; intros tb Hrun; simpl in Hrun.
  - by injection Hrun as <-.
  - apply bind_Ok in Hrun as (tb1 & Hnode & Hrun).
    apply IH in Hrun as [-> ->].
    unfold convert_node in Hnode.
    apply bind_Ok in Hnode as ([attr tb2] & Hattrs & Hnode).
    apply bind_Ok in Hnode as (cn & _ & Hnode). injection Hnode as <-.
    apply convert_attrs_counters in Hattrs as [Hop Hattr].
    cbn. rewrite fold_left_app, Hop, Hattr. done.
Qed.

(** X7: after a successful pass the two counters hold exactly the numbers
    of occurrences: [op_cnt] of each operator type among the nodes,
    [attr_cnt] of each attribute name among the attributes of all nodes,
    dropped ones included; a name that never occurs has no entry. *)
Theorem counters_count_occurrences (ops : list Node) (so : gmap string PyVal)
    (tb : Tables) :
  tflist_to_onnx ops so = Ok tb ->
  (forall op_type, op_cnt tb !! op_type
     = counter_entry (occurrences op_type (n_type <$> ops)))
  /\ (forall a, attr_cnt tb !! a
        = counter_entry
            (occurrences a (concat ((fun node => (n_attr node).*1) <$> ops)))).
Proof.
  intros Hrun. apply tflist_to_onnx_Ok in Hrun as (tb0 & Hscan & Hconv).
  apply scan_outputs_counters in Hscan as [Hop Hattr].
  apply convert_nodes_counters in Hconv as [-> ->]. rewrite Hop, Hattr.
  split; intros k; apply counter_fold_empty.
Qed.

(** ** Identity and order of the converted nodes *)

(** X8: the pass converts every node, in order: the converted nodes carry,
    position by position, the names, operator types and input and output
    names of the source nodes. *)
Theorem converted_nodes_identity (ops : list Node) (so : gmap string PyVal)
    (tb : Tables) :
  tflist_to_onnx ops so = Ok tb ->
  length (onnx_nodes tb) = length ops
  /\ (cn_name <$> onnx_nodes tb) = (n_name <$> ops)
  /\ (cn_op_type <$> onnx_nodes tb) = (n_type <$> ops)
  /\ (cn_input <$> onnx_nodes tb) = ((fun node => t_name <$> n_inputs node) <$> ops)
  /\ (cn_output <$> onnx_nodes tb) = ((fun node => t_name <$> n_outputs node) <$> ops).
Proof.
  intros Hrun. apply tflist_to_onnx_nodes in Hrun.
  split; [symmetry; by eapply Forall2_length|].
  revert Hrun. generalize (onnx_nodes tb) as cns. intros cns Hrun.
  induction Hrun as [|node cn ops cns (Ht & Hi & Ho & Hn & _) _ IH]; [done|].
  destruct IH as (IH1 & IH2 & IH3 & IH4). cbn.
  by rewrite Ht, Hi, Ho, Hn, IH1, IH2, IH3, IH4.
Qed.

(** ** The entries of the dtype table *)

Lemma convert_attrs_dtypes (node : Node) (l : list string)
    (attr attr' : gmap string PyVal) (tb tb' : Tables) :
  foldM (convert_attr node) (attr, tb) l = Ok (attr', tb') ->
  (forall k, k <> n_name node \/ type_hint node = false ->
     dtypes tb' !! k = dtypes tb !! k)
  /\ (type_hint node = true -> "T" ∈ l ->
      exists T d, lookup_attr "T" (n_attr node) = Some T /\ map_tf_dtype T = Ok d
                  /\ dtypes tb' !! n_name node = Some d).
Proof.
  intros Hrun. split.
  - intros k Hk.
    apply (foldM_invariant (convert_attr node)
             (fun st => dtypes st.2 !! k = dtypes tb !! k) l)
      with (st := (attr, tb)) (st' := (attr', tb')); [|done|done].
    intros [attr0 tb0] a [attr1 tb1] _ Hinv Hstep. cbn in *.
    apply convert_attr_step in Hstep as [(h & -> & Hh) _].
    destruct h as [d|]; [|done]. destruct Hh as (_ & Hhint & _). cbn.
    destruct Hk as [Hk|Hk]; [by rewrite lookup_insert_ne | congruence].
  - intros Hhint Hin. destruct (list_elem_of_split _ _ Hin) as (pre & post & ->).
    rewrite foldM_app in Hrun. apply bind_Ok in Hrun as ([attr0 tb0] & _ & Hrun).
    simpl in Hrun. apply bind_Ok in Hrun as ([attr1 tb1] & Hstep & Hrun).
    apply (foldM_invariant (convert_attr node)
             (fun st => exists T d, lookup_attr "T" (n_attr node) = Some T
                          /\ map_tf_dtype T = Ok d
                          /\ dtypes st.2 !! n_name node = Some d) post)
      with (st := (attr1, tb1)) (st' := (attr', tb')); [| |done].
    + intros [attr2 tb2] a [attr3 tb3] _ Hinv Hnext. cbn in *.
      apply convert_attr_step in Hnext as [(h & -> & Hh) _].
      destruct h as [d|]; [|done]. destruct Hh as (_ & _ & T & HT & Hd).
      exists T, d. cbn. by rewrite lookup_insert_eq.
    + cbn. apply convert_attr_step in Hstep as [(h & -> & Hh) _].
      destruct h as [d|]; [|by destruct Hh; congruence].
      destruct Hh as (_ & _ & T & HT & Hd). exists T, d. cbn. by rewrite lookup_insert_eq.
Qed.

Lemma convert_node_dtypes (node : Node) (tb tb' : Tables) :
  convert_node tb node = Ok tb' ->
  (forall k, k <> n_name node \/ type_hint node = false ->
     dtypes tb' !! k = dtypes tb !! k)
  /\ (type_hint node = true ->
      exists T d, lookup_attr "T" (n_attr node) = Some T /\ map_tf_dtype T = Ok d
                  /\ dtypes tb' !! n_name node = Some d).
Proof.
  unfold convert_node. intros Hrun.
  apply bind_Ok in Hrun as ([attr tb1] & Hattrs & Hrun).
  apply bind_Ok in Hrun as (cn & _ & Hrun). injection Hrun as <-.
  apply convert_attrs_dtypes in Hattrs as [Hother Hhint]. split; [exact Hother|].
  intros Hh. apply Hhint; [done|]. unfold type_hint in Hh.
  destruct (lookup_attr "T" (n_attr node)) eqn:HT; [|discriminate].
  by eapply lookup_attr_Some_key.
Qed.

Lemma convert_nodes_dtypes_other (ops : list Node) (tb tb' : Tables) (k : string) :
  foldM convert_node tb ops = Ok tb' -> k ∉ hinted_names ops ->
  dtypes tb' !! k = dtypes tb !! k.
Proof.
  revert tb. induction ops as [|node ops IH]; intros tb Hrun Hk; simpl in Hrun.
  - by injection Hrun as <-.
  - apply bind_Ok in Hrun as (tb1 & Hnode & Hrun). cbn [hinted_names] in Hk.
    apply not_elem_of_union in Hk as [Hk1 Hk2]. rewrite (IH _ Hrun Hk2).
    apply convert_node_dtypes in Hnode as [Hother _]. apply Hother.
    destruct (type_hint node); [left | by right].
    intros ->. apply Hk1. by apply elem_of_singleton.
Qed.

Lemma scan_outputs_dtype (so : gmap string PyVal) (pre post : list Tensor) (out : Tensor)
    (tb tb' : Tables) :
  foldM (scan_output so) tb (pre ++ out :: post) = Ok tb' ->
  Forall (fun o => t_name o <> t_name out) post ->
  exists d, map_tf_dtype (t_dtype out) = Ok d /\ dtypes tb' !! t_name out = Some d.
Proof.
  rewrite foldM_app. intros Hrun Hpost.
  apply bind_Ok in Hrun as (tb1 & _ & Hrun). simpl in Hrun.
  apply bind_Ok in Hrun as (tb2 & Hout & Hrun).
  apply scan_output_Ok in Hout as (d & Hd & ->). exists d. split; [done|].
  revert Hrun.
  apply (foldM_invariant (scan_output so) (fun tb => dtypes tb !! t_name out = Some d)).
  - intros st o st' Hin Hinv Hstep.
    apply scan_output_Ok in Hstep as (d' & _ & ->). cbn.
    rewrite lookup_insert_ne; [done|].
    rewrite Forall_forall in Hpost. by apply Hpost.
  - cbn. apply lookup_insert_eq.
Qed.

(** X9: the dtype table holds, under the name of an output (the last one
    of that name), the mapped type of the output, unless a node with a type
    hint [T] bears the same name. *)
Theorem output_dtype_recorded (ops : list Node) (so : gmap string PyVal) (tb : Tables)
    (pre post : list Tensor) (out : Tensor) :
  tflist_to_onnx ops so = Ok tb ->
  all_outputs ops = pre ++ out :: post ->
  Forall (fun o => t_name o <> t_name out) post ->
  t_name out ∉ hinted_names ops ->
  exists d, map_tf_dtype (t_dtype out) = Ok d /\ dtypes tb !! t_name out = Some d.
Proof.
  intros Hrun Hsplit Hlast Hname.
  apply tflist_to_onnx_Ok in Hrun as (tb0 & Hscan & Hconv).
  rewrite Hsplit in Hscan.
  destruct (scan_outputs_dtype _ _ _ _ _ _ Hscan Hlast) as (d & Hd & Hlook).
  exists d. split; [done|]. by rewrite (convert_nodes_dtypes_other _ _ _ _ Hconv Hname).
Qed.

(** X10: the dtype table holds, under the name of a node with a type hint
    [T] (the last such node of that name), the mapped value of [T]; an
    entry that an output of the same name had is overwritten. *)
Theorem node_type_hint_recorded (ops : list Node) (so : gmap string PyVal) (tb : Tables)
    (pre post : list Node) (node : Node) :
  tflist_to_onnx ops so = Ok tb ->
  ops = pre ++ node :: post ->
  type_hint node = true ->
  n_name node ∉ hinted_names post ->
  exists T d, lookup_attr "T" (n_attr node) = Some T /\ map_tf_dtype T = Ok d
              /\ dtypes tb !! n_name node = Some d.
Proof.
  intros Hrun -> Hhint Hlast.
  apply tflist_to_onnx_Ok in Hrun as (tb0 & _ & Hconv).
  rewrite foldM_app in Hconv. apply bind_Ok in Hconv as (tb1 & _ & Hconv).
  simpl in Hconv. apply bind_Ok in Hconv as (tb2 & Hnode & Hconv).
  apply convert_node_dtypes in Hnode as [_ Hnode].
  destruct (Hnode Hhint) as (T & d & HT & Hd & Hlook). exists T, d.
  split; [done|]. split; [done|].
  by rewrite (convert_nodes_dtypes_other _ _ _ _ Hconv Hlast).
Qed.

(** ** The shape-override table only decides shapes *)

Lemma convert_attr_with_shapes (node : Node) (attr : gmap string PyVal) (tb : Tables)
    (shapes : gmap string PyVal) (a : string) :
  convert_attr node (attr, with_shapes shapes tb) a =
    (st ← convert_attr node (attr, tb) a; Ok (st.1, with_shapes shapes st.2)).
Proof.
  unfold convert_attr, mbind, result_bind. cbn [fst snd].
  repeat match goal with
         | |- context [match ?x with _ => _ end] => destruct x eqn:?
         end; reflexivity.
Qed.

Lemma convert_attrs_with_shapes (node : Node) (l : list string) (attr : gmap string PyVal)
    (tb : Tables) (shapes : gmap string PyVal) :
  foldM (convert_attr node) (attr, with_shapes shapes tb) l =
    (st ← foldM (convert_attr node) (attr, tb) l; Ok (st.1, with_shapes shapes st.2)).
Proof.
  revert attr tb. induction l as [|a l IH]; intros attr tb; [reflexivity|].
  simpl. rewrite convert_attr_with_shapes.
  destruct (convert_attr node (attr, tb) a) as [[attr1 tb1]|e]; [|reflexivity].
  rewrite !Ok_bind. apply IH.
Qed.

Lemma convert_node_with_shapes (node : Node) (tb : Tables) (shapes : gmap string PyVal) :
  convert_node (with_shapes shapes tb) node =
    (tb' ← convert_node tb node; Ok (with_shapes shapes tb')).
Proof.
  unfold convert_node.
  change (incr_op_cnt (n_type node) (with_shapes shapes tb))
    with (with_shapes shapes (incr_op_cnt (n_type node) tb)).
  rewrite convert_attrs_with_shapes.
  destruct (foldM (convert_attr node) _ _) as [[attr1 tb1]|e]; [|reflexivity].
  rewrite !Ok_bind. cbn [fst snd].
  destruct (make_node _ _ _ _ _) as [cn|e]; reflexivity.
Qed.

Lemma convert_nodes_with_shapes (ops : list Node) (tb : Tables)
    (shapes : gmap string PyVal) :
  foldM convert_node (with_shapes shapes tb) ops =
    (tb' ← foldM convert_node tb ops; Ok (with_shapes shapes tb')).
Proof.
  revert tb. induction ops as [|node ops IH]; intros tb; [reflexivity|].
  simpl. rewrite convert_node_with_shapes.
  destruct (convert_node tb node) as [tb1|e]; [|reflexivity].
  rewrite !Ok_bind. apply IH.
Qed.

Lemma scan_outputs_override (so so' : gmap string PyVal) (outs : list Tensor)
    (tb tb1 : Tables) (shapes : gmap string PyVal) :
  foldM (scan_output so) tb outs = Ok tb1 ->
  exists shapes1,
    foldM (scan_output so') (with_shapes shapes tb) outs = Ok (with_shapes shapes1 tb1).
Proof.
  revert tb shapes. induction outs as [|out outs IH]; intros tb shapes Hrun; simpl in Hrun.
  - injection Hrun as <-. by exists shapes.
  - apply bind_Ok in Hrun as (tb2 & Hout & Hrun).
    apply scan_output_Ok in Hout as (d & Hd & ->).
    destruct (IH _ (<[t_name out := resolved_shape so' out]> shapes) Hrun) as [shapes1 Hrest].
    exists shapes1. simpl.
    assert (Hstep : scan_output so' (with_shapes shapes tb) out =
              Ok (with_shapes (<[t_name out := resolved_shape so' out]> shapes)
                    (set_output_shape (t_name out) (resolved_shape so out)
                       (set_dtype (t_name out) d tb)))).
    { destruct (scan_output so' (with_shapes shapes tb) out) as [tb3|e] eqn:Hs.
      - apply scan_output_Ok in Hs as (d' & Hd' & ->). rewrite Hd in Hd'.
        by injection Hd' as <-.
      - unfold scan_output in Hs. by rewrite Hd in Hs. }
    by rewrite Hstep, Ok_bind.
Qed.

(** X11: the shape-override table decides nothing but the shape table: with
    another override table the pass fails or returns alike, and returns the
    same nodes, counters and dtype table. *)
Theorem shape_override_only_shapes (ops : list Node) (so so' : gmap string PyVal) :
  is_ok (tflist_to_onnx ops so) = is_ok (tflist_to_onnx ops so')
  /\ (forall tb, tflist_to_onnx ops so = Ok tb ->
        exists shapes, tflist_to_onnx ops so' = Ok (with_shapes shapes tb)).
Proof.
  assert (Hone : forall so1 so2 tb, tflist_to_onnx ops so1 = Ok tb ->
            exists shapes, tflist_to_onnx ops so2 = Ok (with_shapes shapes tb)).
  { intros so1 so2 tb Hrun. apply tflist_to_onnx_Ok in Hrun as (tb0 & Hscan & Hconv).
    destruct (scan_outputs_override so1 so2 _ _ _ ∅ Hscan) as [shapes0 Hscan'].
    exists shapes0. unfold tflist_to_onnx.
    assert (Hfold : foldM (scan_node so2) init_tables ops = Ok (with_shapes shapes0 tb0)).
    { pose proof (foldM_concat (scan_output so2) (n_outputs <$> ops) init_tables) as Hc.
      rewrite foldM_fmap in Hc. unfold scan_node. rewrite Hc. exact Hscan'. }
    by rewrite Hfold, Ok_bind, convert_nodes_with_shapes, Hconv, Ok_bind. }
  split; [|apply Hone].
  destruct (tflist_to_onnx ops so) as [tb|e] eqn:Hrun.
  - by destruct (Hone so so' tb Hrun) as [shapes ->].
  - destruct (tflist_to_onnx ops so') as [tb'|e'] eqn:Hrun'; [|done].
    destruct (Hone so' so tb' Hrun') as [shapes Hback]. congruence.
Qed.

(** ** More on the tensor codec *)

(** X12: a tensor of objects whose elements can all be coerced to text is
    handed to [from_array] with its shape and with each element replaced,
    in place, by its text. *)
Theorem string_tensor_coerced (t : TfTensorProto) (arr : ndarray) (elems : list Elem)
    (name : string) :
  MakeNdarray t = Ok arr -> nd_data arr = Objects elems ->
  Forall (fun e => is_Some (to_text e)) elems ->
  exists texts,
    Forall2 (fun e text => to_text e = Some text) elems texts
    /\ tf_to_onnx_tensor (VTensor t) name =
         from_array (mk_ndarray (nd_shape arr) (Objects (EStr <$> texts))) name.
Proof.
  intros Harr Hdata Hall.
  destruct (mapM_is_Some_2 to_text elems Hall) as [texts Htexts].
  exists texts. split; [by apply mapM_Some_1|].
  unfold tf_to_onnx_tensor, get_tf_tensor_data. cbn [isinstance_TensorProto make_sure].
  rewrite Ok_bind, Harr, Ok_bind, Hdata. unfold astype_str_object.
  rewrite Htexts. reflexivity.
Qed.

(** X13: a numeric tensor is not touched: when [from_array] accepts the
    array that [MakeNdarray] returned, the payload is that array, shape and
    buffer, under the name given. *)
Theorem numeric_tensor_passthrough (t : TfTensorProto) (arr : ndarray) (kind : Z)
    (buffer : list Z) (name : string) :
  MakeNdarray t = Ok arr -> nd_data arr = Numeric kind buffer ->
  from_array_raises arr name = None ->
  tf_to_onnx_tensor (VTensor t) name = Ok (mk_onnx_tensor name arr).
Proof.
  intros Harr Hdata Hfrom.
  unfold tf_to_onnx_tensor, get_tf_tensor_data. cbn [isinstance_TensorProto make_sure].
  rewrite Ok_bind, Harr, Ok_bind, Hdata, Ok_bind. unfold from_array. by rewrite Hfrom.
Qed.

(** X14: [tf_to_onnx_tensor] rejects a value that is no [TensorProto]
    before anything else, and passes on a failure of [MakeNdarray]; whatever
    makes it fail on the ["value"] attribute of a node makes the pass fail. *)
Theorem value_attr_failure_aborts :
  (forall v name, isinstance_TensorProto v = false ->
     tf_to_onnx_tensor v name = Raise (make_sure_exn "Require TensorProto"))
  /\ (forall t e name, MakeNdarray t = Raise e ->
        tf_to_onnx_tensor (VTensor t) name = Raise e)
  /\ (forall ops so node v e, node ∈ ops ->
        lookup_attr "value" (n_attr node) = Some v ->
        tf_to_onnx_tensor v (port_name (n_name node)) = Raise e ->
        is_ok (tflist_to_onnx ops so) = false).
Proof.
  split; [|split].
  - intros v name Hv. unfold tf_to_onnx_tensor, get_tf_tensor_data. by rewrite Hv.
  - intros t e name Harr. unfold tf_to_onnx_tensor, get_tf_tensor_data.
    cbn [isinstance_TensorProto make_sure]. by rewrite Ok_bind, Harr.
  - intros ops so node v e Hnode Hval Hfail.
    destruct (tflist_to_onnx ops so) as [tb|] eqn:Hrun; [|done]. exfalso.
    apply tflist_to_onnx_Ok in Hrun as (tb0 & _ & Hconv).
    destruct (foldM_Ok_step _ _ _ _ _ Hconv Hnode) as (tb1 & tb2 & Hcn).
    unfold convert_node in Hcn. apply bind_Ok in Hcn as (st & Hattrs & _).
    destruct (foldM_Ok_step _ _ "value" _ _ Hattrs (lookup_attr_Some_key _ _ _ Hval))
      as (st1 & st2 & Hok).
    rewrite convert_attr_value, (get_attr_lookup _ _ _ Hval), Ok_bind, Hfail in Hok.
    discriminate Hok.
Qed.

(** ** Constant values *)

(** X15: [get_tf_const_value] fails with the error of [make_sure] on an op
    that is no constant, whatever its attributes; it returns exactly when
    the op is a constant whose ["value"] attribute is a [TensorProto] that
    [MakeNdarray] accepts, and then returns that array, as a list when
    [as_list] is set. *)
Theorem get_tf_const_value_spec `{ConstExternals} (op : Node) (as_list : bool) :
  (is_tf_const_op op = false ->
   get_tf_const_value op as_list
     = Raise (make_sure_exn (String.append (n_name op) " isn't a const op")))
  /\ (forall r, get_tf_const_value op as_list = Ok r <->
        exists t arr, is_tf_const_op op = true
          /\ lookup_attr "value" (n_attr op) = Some (VTensor t)
          /\ MakeNdarray t = Ok arr
          /\ r = if as_list then AsList (tolist arr) else AsArray arr).
Proof.
  unfold get_tf_const_value, make_sure, get_attr, get_tf_tensor_data, make_sure.
  split.
  - by intros ->.
  - intros r. split.
    + destruct (is_tf_const_op op); [|discriminate]. rewrite Ok_bind.
      destruct (lookup_attr "value" (n_attr op)) as [v|]; [|discriminate].
      rewrite Ok_bind.
      destruct v as [| | | | | |t|]; try discriminate.
      cbn [isinstance_TensorProto]. rewrite Ok_bind.
      destruct (MakeNdarray t) as [arr|] eqn:Harr; [|discriminate].
      rewrite Ok_bind. intros Hr. exists t, arr. repeat split; try done.
      by destruct as_list; injection Hr as <-.
    + intros (t & arr & -> & -> & Harr & ->). rewrite !Ok_bind.
      cbn [isinstance_TensorProto]. rewrite Ok_bind, Harr, Ok_bind.
      by destruct as_list.
Qed.

End MoreProperties.

(** ** The codes of the type table *)

Lemma TF_TO_ONNX_DTYPE_range :
  map_Forall (fun z c => (1 <= z <= 20)%Z /\ (1 <= c <= 15)%Z) TF_TO_ONNX_DTYPE.
Proof. apply (bool_decide_unpack _). vm_compute. reflexivity. Qed.

(** X16: what [map_tf_dtype] returns for a truthy type is a defined target
    code, between 1 and 15 and never the undefined code 0, so it is truthy
    again; an integer type code that is mapped lies between 1 and 20. *)
Theorem map_tf_dtype_defined_code (dtype d : PyVal) :
  truthy dtype = true -> map_tf_dtype dtype = Ok d ->
  (exists c, d = VInt c /\ (1 <= c <= 15)%Z)
  /\ truthy d = true
  /\ (forall z, dtype = VInt z -> (1 <= z <= 20)%Z).
Proof.
  intros Ht Hmap. unfold map_tf_dtype in Hmap. rewrite Ht in Hmap.
  assert (Hcode : exists z c, TF_TO_ONNX_DTYPE !! z = Some c /\ d = VInt c
                              /\ forall z', dtype = VInt z' -> z' = z).
  { destruct dtype as [|b|z| | | | |]; try discriminate Hmap;
      cbn [TF_TO_ONNX_DTYPE_getitem] in Hmap.
    - destruct (TF_TO_ONNX_DTYPE !! (if b then 1 else 0)%Z) as [c|] eqn:Hc; [|discriminate].
      injection Hmap as <-. exists (if b then 1 else 0)%Z, c. repeat split; [done|discriminate].
    - destruct (TF_TO_ONNX_DTYPE !! z) as [c|] eqn:Hc; [|discriminate].
      injection Hmap as <-. exists z, c. repeat split; [done|]. by intros z' [= <-]. }
  destruct Hcode as (z & c & Hc & -> & Hz).
  destruct (TF_TO_ONNX_DTYPE_range z c Hc) as [Hzr Hcr].
  split; [eauto|]. split.
  - cbn. destruct (Z.eqb_spec c 0); [lia | done].
  - intros z' Hz'. by rewrite (Hz z' Hz').
Qed.

(** ** The further properties at sample graphs *)

Lemma converted_attr_names_witness :
  "shape" ∈ dom (cn_attr shaped_placeholder_converted)
  /\ "Tshape" ∉ dom (cn_attr shaped_placeholder_converted).
Proof.
  pose proof (@converted_attr_names sample_externals [shaped_placeholder_node] ∅
                (run_value init_tables
                   (@tflist_to_onnx sample_externals [shaped_placeholder_node] ∅))
                0 shaped_placeholder_node shaped_placeholder_converted
                ltac:(vm_compute; reflexivity) eq_refl
                ltac:(vm_compute; reflexivity)) as Hdom.
  split.
  - apply Hdom. left. split; [apply list_elem_of_further, list_elem_of_here|].
    split; [reflexivity|]. split; [discriminate|]. intros _. discriminate.
  - intros Hin. apply Hdom in Hin as [(_ & Hd & _)|(Hk & _)]; discriminate.
Defined.

Lemma plain_attr_copied_witness :
  cn_attr shaped_placeholder_converted !! "_output_shapes" = Some (VList []).
Proof.
  apply (@plain_attr_copied sample_externals [shaped_placeholder_node] ∅
           (run_value init_tables
              (@tflist_to_onnx sample_externals [shaped_placeholder_node] ∅))
           0 shaped_placeholder_node shaped_placeholder_converted).
  - vm_compute. reflexivity.
  - reflexivity.
  - vm_compute. reflexivity.
  - reflexivity.
  - reflexivity.
  - discriminate.
Defined.

Lemma type_attr_mapped_witness :
  exists d, map_tf_dtype (VInt types_pb2.DT_FLOAT) = Ok d
            /\ cn_attr shaped_placeholder_converted !! "dtype" = Some d.
Proof.
  apply (@type_attr_mapped sample_externals [shaped_placeholder_node] ∅
           (run_value init_tables
              (@tflist_to_onnx sample_externals [shaped_placeholder_node] ∅))
           0 shaped_placeholder_node shaped_placeholder_converted).
  - vm_compute. reflexivity.
  - reflexivity.
  - vm_compute. reflexivity.
  - reflexivity.
  - reflexivity.
Defined.

Lemma shape_attr_known_rank_witness :
  cn_attr shaped_placeholder_converted !! "shape" = Some (VList [VInt (-1); VInt 3]).
Proof.
  apply (proj2 (@shape_attr_known_rank sample_externals shaped_placeholder_node)
           [-1; 3]%Z [shaped_placeholder_node] ∅
           (run_value init_tables
              (@tflist_to_onnx sample_externals [shaped_placeholder_node] ∅))
           0 shaped_placeholder_converted).
  - reflexivity.
  - vm_compute. reflexivity.
  - reflexivity.
  - vm_compute. reflexivity.
Defined.

Lemma name_attr_aborts_witness :
  is_ok (@tflist_to_onnx sample_externals [identity_node; named_attr_node] ∅) = false.
Proof.
  apply (@name_attr_aborts sample_externals _ ∅ named_attr_node).
  - apply list_elem_of_further, list_elem_of_here.
  - apply list_elem_of_here.
Defined.

Lemma unsupported_type_aborts_witness :
  is_ok (@tflist_to_onnx sample_externals [identity_node; variant_node] ∅) = false.
Proof.
  apply (@unsupported_type_aborts sample_externals _ ∅ variant_node (KeyError 21)).
  - apply list_elem_of_further, list_elem_of_here.
  - left. exists (mk_tensor "v:0" (VInt 21) None). split; [apply list_elem_of_here|].
    vm_compute. reflexivity.
Defined.

Lemma counters_count_occurrences_witness :
  let tb := run_value init_tables
              (@tflist_to_onnx sample_externals [identity_node; plain_cast_node; cast_node] ∅) in
  op_cnt tb !! "Cast" = Some 2
  /\ op_cnt tb !! "Const" = None
  /\ attr_cnt tb !! "SrcT" = Some 2.
Proof.
  intros tb.
  destruct (@counters_count_occurrences sample_externals
              [identity_node; plain_cast_node; cast_node] ∅ tb) as [Hop Hattr];
    [vm_compute; reflexivity|].
  split; [exact (Hop "Cast")|]. split; [exact (Hop "Const") | exact (Hattr "SrcT")].
Defined.

Lemma converted_nodes_identity_witness :
  let tb := run_value init_tables
              (@tflist_to_onnx sample_externals [identity_node; plain_cast_node] ∅) in
  (cn_name <$> onnx_nodes tb) = ["n"; "c"]
  /\ (cn_op_type <$> onnx_nodes tb) = ["Identity"; "Cast"].
Proof.
  intros tb.
  destruct (@converted_nodes_identity sample_externals [identity_node; plain_cast_node] ∅ tb)
    as (_ & Hn & Ht & _); [vm_compute; reflexivity|].
  split; [exact Hn | exact Ht].
Defined.

Lemma output_dtype_recorded_witness :
  let tb := run_value init_tables (@tflist_to_onnx sample_externals [identity_node] ∅) in
  exists d, map_tf_dtype (VInt types_pb2.DT_FLOAT) = Ok d /\ dtypes tb !! "n:0" = Some d.
Proof.
  intros tb.
  apply (@output_dtype_recorded sample_externals [identity_node] ∅ tb []
           [] (mk_tensor "n:0" (VInt types_pb2.DT_FLOAT) (Some [Some 2%Z; None]))).
  - vm_compute. reflexivity.
  - reflexivity.
  - constructor.
  - apply (bool_decide_unpack _). vm_compute. reflexivity.
Defined.

Lemma node_type_hint_recorded_witness :
  let tb := run_value init_tables (@tflist_to_onnx sample_externals [identity_node] ∅) in
  exists T d, lookup_attr "T" (n_attr identity_node) = Some T /\ map_tf_dtype T = Ok d
              /\ dtypes tb !! "n" = Some d.
Proof.
  intros tb.
  apply (@node_type_hint_recorded sample_externals [identity_node] ∅ tb [] [] identity_node).
  - vm_compute. reflexivity.
  - reflexivity.
  - reflexivity.
  - apply not_elem_of_empty.
Defined.

Lemma shape_override_only_shapes_witness :
  let tb := run_value init_tables (@tflist_to_onnx sample_externals [identity_node] ∅) in
  exists shapes,
    @tflist_to_onnx sample_externals [identity_node] {["n:0" := VList [VInt 5]]}
      = Ok (with_shapes shapes tb).
Proof.
  intros tb.
  apply (proj2 (@shape_override_only_shapes sample_externals [identity_node] ∅
                  {["n:0" := VList [VInt 5]]}) tb).
  vm_compute. reflexivity.
Defined.

Lemma string_tensor_coerced_witness :
  exists texts,
    Forall2 (fun e text => ascii_text e = Some text) [EBytes [104; 105]%Z] texts
    /\ @tf_to_onnx_tensor sample_externals (VTensor good_string_tensor) "s:0" =
         @from_array sample_externals (mk_ndarray [] (Objects (EStr <$> texts))) "s:0".
Proof.
  apply (@string_tensor_coerced sample_externals good_string_tensor
           (mk_ndarray [] (Objects [EBytes [104; 105]%Z])) [EBytes [104; 105]%Z] "s:0").
  - reflexivity.
  - reflexivity.
  - constructor; [|constructor]. eexists. reflexivity.
Defined.

Lemma numeric_tensor_passthrough_witness :
  @tf_to_onnx_tensor sample_externals (VTensor int_tensor) "k:0"
    = Ok (mk_onnx_tensor "k:0" (mk_ndarray [] (Numeric 3 [1; 0; 0; 0]%Z))).
Proof.
  apply (@numeric_tensor_passthrough sample_externals int_tensor
           (mk_ndarray [] (Numeric 3 [1; 0; 0; 0]%Z)) 3 [1; 0; 0; 0]%Z "k:0");
    reflexivity.
Defined.

Lemma value_attr_failure_aborts_witness :
  is_ok (@tflist_to_onnx sample_externals [identity_node; bad_value_node] ∅) = false.
Proof.
  destruct (@value_attr_failure_aborts sample_externals) as (Hnot & _ & Hpass).
  apply (Hpass _ ∅ bad_value_node (VInt 3)
           (ValueError "make_sure failure: Require TensorProto")).
  - apply list_elem_of_further, list_elem_of_here.
  - reflexivity.
  - apply (Hnot (VInt 3)). reflexivity.
Defined.

Lemma get_tf_const_value_spec_witness :
  @get_tf_const_value sample_externals sample_const_externals const_node true
    = Ok (AsList (VInt 1))
  /\ @get_tf_const_value sample_externals sample_const_externals const_node false
       = Ok (AsArray (mk_ndarray [] (Numeric 3 [1; 0; 0; 0]%Z)))
  /\ @get_tf_const_value sample_externals sample_const_externals identity_node true
       = Raise (ValueError "make_sure failure: n isn't a const op").
Proof.
  split; [|split].
  - apply (proj2 (@get_tf_const_value_spec sample_externals sample_const_externals
                    const_node true)).
    exists int_tensor, (mk_ndarray [] (Numeric 3 [1; 0; 0; 0]%Z)). repeat split.
  - apply (proj2 (@get_tf_const_value_spec sample_externals sample_const_externals
                    const_node false)).
    exists int_tensor, (mk_ndarray [] (Numeric 3 [1; 0; 0; 0]%Z)). repeat split.
  - apply (proj1 (@get_tf_const_value_spec sample_externals sample_const_externals
                    identity_node true)).
    reflexivity.
Defined.

Lemma map_tf_dtype_defined_code_witness :
  (exists c, VInt TensorProto.INT32 = VInt c /\ (1 <= c <= 15)%Z)
  /\ truthy (VInt TensorProto.INT32) = true
  /\ (forall z, VInt types_pb2.DT_INT32 = VInt z -> (1 <= z <= 20)%Z).
Proof.
  apply (map_tf_dtype_defined_code (VInt types_pb2.DT_INT32) (VInt TensorProto.INT32));
    reflexivity.
Defined.

(** * The round trip of a numeric tensor *)

Section RoundTrip.
Context `{Externals}.

(** C4: for a tensor of a numeric kind, whatever payload the codec returns
    decodes to the array of the tensor, with its shape and its element
    buffer as they were, and carries the name given; the codec does return
    a payload whenever [from_array] accepts the array. *)
Theorem numeric_tensor_round_trip (t : TfTensorProto) (arr : ndarray) (kind : Z)
    (buffer : list Z) (name : string) :
  MakeNdarray t = Ok arr -> nd_data arr = Numeric kind buffer ->
  (forall p, tf_to_onnx_tensor (VTensor t) name = Ok p ->
     to_array p = arr
     /\ nd_shape (to_array p) = nd_shape arr
     /\ nd_data (to_array p) = Numeric kind buffer
     /\ ot_name p = name)
  /\ (from_array_raises arr name = None ->
      exists p, tf_to_onnx_tensor (VTensor t) name = Ok p /\ to_array p = arr).
Proof.
  intros Harr Hdata.
  rewrite (tf_to_onnx_tensor_numeric t arr kind buffer name Harr Hdata).
  unfold from_array. destruct (from_array_raises arr name) as [e|].
  - split; [intros p Hp; discriminate Hp | intros Hnone; discriminate Hnone].
  - split.
    + intros p [= <-]. unfold to_array. cbn. by rewrite Hdata.
    + intros _. eexists. split; reflexivity.
Qed.

End RoundTrip.

Lemma numeric_tensor_round_trip_witness :
  exists p,
    @tf_to_onnx_tensor sample_externals (VTensor int_tensor) "k:0" = Ok p
    /\ to_array p = mk_ndarray [] (Numeric types_pb2.DT_INT32 [1; 0; 0; 0]%Z).
Proof.
  apply (proj2 (@numeric_tensor_round_trip sample_externals int_tensor
                  (mk_ndarray [] (Numeric types_pb2.DT_INT32 [1; 0; 0; 0]%Z))
                  types_pb2.DT_INT32 [1; 0; 0; 0]%Z "k:0" eq_refl eq_refl)).
  reflexivity.
Defined.
